(** * proj2_nps: a cached scraper of National Park Service sites

    A shallow embedding of [proj2_nps.py] and the properties of its cache
    layer, its record type, its formatter and its interactive shell.

    Python values are embedded as the type [value] (what [json.loads]
    delivers, floats left out); a [str] is a [string] whose characters are
    the code points below 256.  The module-level dictionary [CACHE], the
    cache file, the console and the network live in a [world] that every
    operation threads; an operation returns either a value or the exception
    it raised, together with the world it left behind.

    [CACHE] is a dict, as it is whenever the cache file is one the script
    wrote; [open_cache] itself is modelled for any file.  The values the
    script stores are never changed in place afterwards, so a stored value
    and the value returned stand for one object. *)

From Stdlib Require Import List String Ascii ZArith Bool Lia DecimalString.
From Stdlib Require DecimalPos.
Import ListNotations.
Local Open Scope string_scope.
Local Open Scope Z_scope.
Local Set Warnings "-register-all".

(** ** Python values and exceptions *)

Inductive value : Type :=
| VNone
| VBool (b : bool)
| VInt (z : Z)
| VStr (s : string)
| VList (l : list value)
| VDict (d : list (value * value)).

(** A [dict] keeps its items in insertion order. *)
Definition dict : Type := list (value * value).

Inductive exn : Type :=
| KeyError (key : value)
| TypeError
| IndexError
| ValueError
| AttributeError
| EOFError
| OSError
| JSONDecodeError
| RequestException
| SystemExit.

Inductive result (A : Type) : Type :=
| Ok (a : A)
| Raise (e : exn).
Arguments Ok {A} a.
Arguments Raise {A} e.

Definition rbind {A B} (r : result A) (k : A -> result B) : result B :=
  match r with
  | Ok a => k a
  | Raise e => Raise e
  end.

Fixpoint rmap {A B} (f : A -> result B) (l : list A) : result (list B) :=
  match l with
  | [] => Ok []
  | x :: l' => rbind (f x) (fun y => rbind (rmap f l') (fun ys => Ok (y :: ys)))
  end.

(** ** The string methods the script calls *)

Module Py.

Definition code (c : ascii) : N := N_of_ascii c.

Definition char (n : N) : ascii := ascii_of_N n.

Definition str1 (c : ascii) : string := String c EmptyString.

Definition dquote : string := str1 (char 34).
Definition newline : string := str1 (char 10).

(** [str.lower]: A-Z and the accented capitals move up by 32. *)
Definition lower_char (c : ascii) : ascii :=
  let n := code c in
  if ((65 <=? n) && (n <=? 90))%N then char (n + 32)
  else if ((192 <=? n) && (n <=? 222) && negb (n =? 215))%N then char (n + 32)
  else c.

Fixpoint lower (s : string) : string :=
  match s with
  | EmptyString => EmptyString
  | String c s' => String (lower_char c) (lower s')
  end.

(** [str.isspace] on one character. *)
Definition isspace (c : ascii) : bool :=
  let n := code c in
  (((9 <=? n) && (n <=? 13)) || ((28 <=? n) && (n <=? 32))
   || (n =? 133) || (n =? 160))%N.

Fixpoint lstrip (s : string) : string :=
  match s with
  | EmptyString => EmptyString
  | String c s' => if isspace c then lstrip s' else s
  end.

Fixpoint rstrip (s : string) : string :=
  match s with
  | EmptyString => EmptyString
  | String c s' =>
      match rstrip s' with
      | EmptyString => if isspace c then EmptyString else str1 c
      | t => String c t
      end
  end.

Definition strip (s : string) : string := rstrip (lstrip s).

(** The characters with a numeric value: the digits, the superscripts
    one to three and the three vulgar fractions. *)
Definition numeric_char (c : ascii) : bool :=
  let n := code c in
  (((48 <=? n) && (n <=? 57)) || (n =? 178) || (n =? 179) || (n =? 185)
   || ((188 <=? n) && (n <=? 190)))%N.

Fixpoint all_chars (p : ascii -> bool) (s : string) : bool :=
  match s with
  | EmptyString => true
  | String c s' => p c && all_chars p s'
  end.

Definition isnumeric (s : string) : bool :=
  match s with
  | EmptyString => false
  | _ => all_chars numeric_char s
  end.

Definition isdigit (c : ascii) : bool :=
  let n := code c in ((48 <=? n) && (n <=? 57))%N.

(** [int(s)]: blanks around, an optional sign, then decimal digits that
    single underscores may separate.  Integers have no bound (the limit
    recent interpreters put on the number of digits is left out). *)
Fixpoint digits (acc : Z) (after_digit : bool) (s : string) : option Z :=
  match s with
  | EmptyString => if after_digit then Some acc else None
  | String c s' =>
      if isdigit c then digits (10 * acc + Z.of_N (code c - 48)) true s'
      else if (code c =? 95)%N && after_digit then digits acc false s'
      else None
  end.

Definition int (s : string) : result Z :=
  let body (t : string) :=
    match digits 0 false t with
    | Some z => Ok z
    | None => Raise ValueError
    end in
  match strip s with
  | String c t =>
      if (code c =? 45)%N then rbind (body t) (fun z => Ok (- z))
      else if (code c =? 43)%N then body t
      else body (String c t)
  | EmptyString => Raise ValueError
  end.

(** [s in t] for two strings. *)
Fixpoint contains (s t : string) : bool :=
  prefix s t ||
  match t with
  | EmptyString => false
  | String _ t' => contains s t'
  end.

(** Decimal text of an [int]. *)
Definition str_of_int (z : Z) : string := NilZero.string_of_int (Z.to_int z).

(** *** [repr] and [str] *)

Definition hexdigit (n : N) : ascii :=
  if (n <? 10)%N then char (48 + n) else char (87 + n).

Definition hex_escape (c : ascii) : string :=
  "\x" ++ str1 (hexdigit (code c / 16)) ++ str1 (hexdigit (code c mod 16)).

Definition repr_char (quote c : ascii) : string :=
  let n := code c in
  if Ascii.eqb c quote || (n =? 92)%N then String (char 92) (str1 c)
  else if (n =? 9)%N then "\t"
  else if (n =? 10)%N then "\n"
  else if (n =? 13)%N then "\r"
  else if ((n <? 32) || (n =? 127))%N then hex_escape c
  else if (n <? 127)%N then str1 c
  else if ((n <=? 160) || (n =? 173))%N then hex_escape c
  else str1 c.

Fixpoint has_char (q : ascii) (s : string) : bool :=
  match s with
  | EmptyString => false
  | String c s' => Ascii.eqb c q || has_char q s'
  end.

Fixpoint escape (quote : ascii) (s : string) : string :=
  match s with
  | EmptyString => EmptyString
  | String c s' => repr_char quote c ++ escape quote s'
  end.

Definition repr_str (s : string) : string :=
  let quote :=
    if has_char (char 39) s && negb (has_char (char 34) s)
    then char 34 else char 39 in
  str1 quote ++ escape quote s ++ str1 quote.

Fixpoint join (sep : string) (l : list string) : string :=
  match l with
  | [] => EmptyString
  | [x] => x
  | x :: l' => x ++ sep ++ join sep l'
  end.

Fixpoint repr (v : value) : string :=
  match v with
  | VNone => "None"
  | VBool true => "True"
  | VBool false => "False"
  | VInt z => str_of_int z
  | VStr s => repr_str s
  | VList l => "[" ++ join ", " (map repr l) ++ "]"
  | VDict d =>
      "{" ++ join ", " (map (fun kv => repr (fst kv) ++ ": " ++ repr (snd kv)) d)
          ++ "}"
  end.

(** [str(v)], which is also what an f-string field puts out. *)
Definition str (v : value) : string :=
  match v with
  | VStr s => s
  | _ => repr v
  end.

(** Truth value of a Python object: [not v] is [negb (truthy v)]. *)
Definition truthy (v : value) : bool :=
  match v with
  | VNone => false
  | VBool b => b
  | VInt z => negb (z =? 0)
  | VStr s => negb (String.eqb s EmptyString)
  | VList l => match l with [] => false | _ => true end
  | VDict d => match d with [] => false | _ => true end
  end.

End Py.

(** ** Dictionaries

    Keys are compared the way Python compares hashable objects: [True] and
    [1] are one key, a string only equals the same string, and lists and
    dicts cannot be keys at all. *)

Definition hashable (k : value) : bool :=
  match k with
  | VList _ | VDict _ => false
  | _ => true
  end.

Definition key_eqb (a b : value) : bool :=
  match a, b with
  | VNone, VNone => true
  | VStr s, VStr t => String.eqb s t
  | VBool x, VBool y => Bool.eqb x y
  | VBool x, VInt z | VInt z, VBool x => (if x then 1 else 0) =? z
  | VInt x, VInt y => x =? y
  | _, _ => false
  end.

Fixpoint dict_get (k : value) (d : dict) : option value :=
  match d with
  | [] => None
  | (k', v) :: d' => if key_eqb k' k then Some v else dict_get k d'
  end.

(** [d[k] = v]: an existing key keeps its place, a new one goes last. *)
Fixpoint dict_set (k v : value) (d : dict) : dict :=
  match d with
  | [] => [(k, v)]
  | (k', v') :: d' =>
      if key_eqb k' k then (k', v) :: d' else (k', v') :: dict_set k v d'
  end.

Definition dict_keys (d : dict) : list value := map fst d.

(** [c[k]] for a string [k]. *)
Definition getitem_str (c : value) (k : string) : result value :=
  match c with
  | VDict d =>
      match dict_get (VStr k) d with
      | Some v => Ok v
      | None => Raise (KeyError (VStr k))
      end
  | _ => Raise TypeError
  end.

(** [k in c] for a string [k]. *)
Definition str_in (k : string) (c : value) : result bool :=
  match c with
  | VDict d =>
      Ok (match dict_get (VStr k) d with Some _ => true | None => false end)
  | VList l => Ok (existsb (key_eqb (VStr k)) l)
  | VStr t => Ok (Py.contains k t)
  | _ => Raise TypeError
  end.

Fixpoint chars (s : string) : list value :=
  match s with
  | EmptyString => []
  | String c s' => VStr (Py.str1 c) :: chars s'
  end.

(** What a [for] loop over [c] visits. *)
Definition py_iter (c : value) : result (list value) :=
  match c with
  | VList l => Ok l
  | VDict d => Ok (dict_keys d)
  | VStr s => Ok (chars s)
  | _ => Raise TypeError
  end.

(** ** JSON text

    The text of the cache file is kept as the document it spells out.
    [json_dumps] writes a value as a document, turning the keys of every
    dict into strings; [json_loads] reads a document back, a repeated key
    of an object keeping its first place and its last value. *)

Inductive json : Type :=
| JNull
| JBool (b : bool)
| JNumber (z : Z)
| JString (s : string)
| JArray (l : list json)
| JObject (m : list (string * json)).

Fixpoint json_loads (j : json) : value :=
  match j with
  | JNull => VNone
  | JBool b => VBool b
  | JNumber z => VInt z
  | JString s => VStr s
  | JArray l => VList (map json_loads l)
  | JObject m =>
      VDict (fold_left
               (fun d kv => dict_set (VStr (fst kv)) (json_loads (snd kv)) d)
               m [])
  end.

Definition json_key (k : value) : result string :=
  match k with
  | VStr s => Ok s
  | VBool true => Ok "true"
  | VBool false => Ok "false"
  | VNone => Ok "null"
  | VInt z => Ok (Py.str_of_int z)
  | _ => Raise TypeError
  end.

Fixpoint json_dumps (v : value) : result json :=
  match v with
  | VNone => Ok JNull
  | VBool b => Ok (JBool b)
  | VInt z => Ok (JNumber z)
  | VStr s => Ok (JString s)
  | VList l => rbind (rmap json_dumps l) (fun js => Ok (JArray js))
  | VDict d =>
      rbind (rmap (fun kv => rbind (json_key (fst kv)) (fun k =>
                             rbind (json_dumps (snd kv)) (fun j => Ok (k, j)))) d)
            (fun m => Ok (JObject m))
  end.

(** ** Site records *)

Record NationalSite : Type := mkNationalSite {
  category : value;
  name : value;
  address : value;
  zipcode : value;
  phone : value
}.

(** [NationalSite.info] *)
Definition info (self : NationalSite) : string :=
  Py.str (name self) ++ " (" ++ Py.str (category self) ++ "): "
  ++ Py.str (address self) ++ " " ++ Py.str (zipcode self).

(** [instance.__dict__]: the attributes in the order [__init__] sets them. *)
Definition attributes (self : NationalSite) : value :=
  VDict [(VStr "category", category self); (VStr "name", name self);
         (VStr "address", address self); (VStr "zipcode", zipcode self);
         (VStr "phone", phone self)].

Definition json_to_NationalSite (json : value) : result NationalSite :=
  rbind (getitem_str json "category") (fun c =>
  rbind (getitem_str json "name") (fun n =>
  rbind (getitem_str json "address") (fun a =>
  rbind (getitem_str json "zipcode") (fun z =>
  rbind (getitem_str json "phone") (fun p =>
  Ok (mkNationalSite c n a z p)))))).

(** ** Formatting a nearby place *)

Definition nearby_places_info (place_dict : value) : result string :=
  rbind (getitem_str place_dict "name") (fun name =>
  rbind (getitem_str place_dict "group_sic_code_name_ext") (fun c =>
  let category := if negb (Py.truthy c) then VStr "no category" else c in
  rbind (getitem_str place_dict "address") (fun a =>
  let address := if negb (Py.truthy a) then VStr "no address" else a in
  rbind (getitem_str place_dict "city") (fun ci =>
  let city := if negb (Py.truthy ci) then VStr "no city" else ci in
  Ok (Py.str name ++ " (" ++ Py.str category ++ "): " ++ Py.str address
      ++ ", " ++ Py.str city))))).

(** ** The world the script runs in *)

(** What [cache.json] holds: nothing, something that cannot be opened or
    decoded, text that is not JSON, or a JSON document. *)
Inductive file_state : Type :=
| Absent
| Unreadable
| Garbled
| Document (j : json).

Record world : Type := mkWorld {
  CACHE : dict;
  disk : file_state;
  writable : bool;
  stdout : list string;
  requests : list string
}.

Definition set_CACHE (c : dict) (w : world) : world :=
  mkWorld c (disk w) (writable w) (stdout w) (requests w).

Definition set_disk (f : file_state) (w : world) : world :=
  mkWorld (CACHE w) f (writable w) (stdout w) (requests w).

Definition emit (s : string) (w : world) : world :=
  mkWorld (CACHE w) (disk w) (writable w) (stdout w ++ [s])%list (requests w).

Definition log_request (url : string) (w : world) : world :=
  mkWorld (CACHE w) (disk w) (writable w) (stdout w) (requests w ++ [url])%list.

(** An operation: the world goes in, the outcome and the world left behind
    come out.  What an operation did before it raised stays done. *)
Definition M (A : Type) : Type := world -> result A * world.

Definition ret {A} (a : A) : M A := fun w => (Ok a, w).

Definition raise {A} (e : exn) : M A := fun w => (Raise e, w).

Definition bind {A B} (m : M A) (k : A -> M B) : M B :=
  fun w =>
    match m w with
    | (Ok a, w') => k a w'
    | (Raise e, w') => (Raise e, w')
    end.

Definition lift {A} (r : result A) : M A := fun w => (r, w).

Declare Scope py_scope.
Delimit Scope py_scope with py.
Notation "x <- m ;; k" := (bind m (fun x => k))
  (at level 61, m at next level, right associativity) : py_scope.
Notation "m ;; k" := (bind m (fun _ => k))
  (at level 61, right associativity) : py_scope.
Local Open Scope py_scope.

(** [try: body except: handler] with a bare [except]. *)
Definition try_except {A} (body handler : M A) : M A :=
  fun w =>
    match body w with
    | (Ok a, w') => (Ok a, w')
    | (Raise _, w') => handler w'
    end.

Definition print (s : string) : M unit :=
  fun w => (Ok tt, emit (s ++ Py.newline) w).

(** The global [CACHE] *)
Definition the_CACHE : M dict := fun w => (Ok (CACHE w), w).

(** [k in CACHE] *)
Definition cache_contains (k : value) : M bool :=
  fun w =>
    if hashable k
    then (Ok (match dict_get k (CACHE w) with Some _ => true | None => false end), w)
    else (Raise TypeError, w).

(** [CACHE[k]] *)
Definition cache_getitem (k : value) : M value :=
  fun w =>
    if hashable k
    then match dict_get k (CACHE w) with
         | Some v => (Ok v, w)
         | None => (Raise (KeyError k), w)
         end
    else (Raise TypeError, w).

(** [CACHE[k] = v] *)
Definition cache_setitem (k v : value) : M unit :=
  fun w =>
    if hashable k
    then (Ok tt, set_CACHE (dict_set k v (CACHE w)) w)
    else (Raise TypeError, w).

(** ** The cache file *)

(** The three statements under [try] in [open_cache]: open the file, read
    it and decode it. *)
Definition read_cache_file : M value :=
  fun w =>
    match disk w with
    | Absent => (Raise OSError, w)
    | Unreadable => (Raise OSError, w)
    | Garbled => (Raise JSONDecodeError, w)
    | Document j => (Ok (json_loads j), w)
    end.

Definition open_cache : M value :=
  try_except read_cache_file (ret (VDict [])).

Definition save_cache (cache_dict : dict) : M unit :=
  dumped_json_cache <- lift (json_dumps (VDict cache_dict)) ;;
  fun w =>
    if writable w
    then (Ok tt, set_disk (Document dumped_json_cache) w)
    else (Raise OSError, w).

(** ** What the script gets from outside

    The API key of the [secrets] module, the network and the two parsers
    (BeautifulSoup with the selectors of the script, and the decoder of an
    API response).  The network answers a request knowing the requests made
    before it.  A page gives whole results or the exception its parsing
    raised; on a state page each [h3] header gives the [href] of its link
    or the exception that reading it raised. *)

Record site_page : Type := mkSitePage {
  hero_designation : string;
  hero_title : string;
  addressLocality : string;
  addressRegion : string;
  postalCode : string;
  telephone : string
}.

Class Environment : Type := {
  API_KEY : string;
  http_get : list string -> string -> result string;
  response_json : string -> result value;
  scrape_states : string -> result (list (string * string));
  scrape_site : string -> result site_page;
  scrape_headers : string -> result (list (result string))
}.

Section Fetchers.

Context {env : Environment}.

(** [requests.get(url).text] *)
Definition requests_get (url : string) : M string :=
  fun w => (http_get (requests w) url, log_request url w).

Definition build_state_url_dict : M value :=
  hit <- cache_contains (VStr "states") ;;
  if hit : bool then
    print "Using cache" ;;
    cache_getitem (VStr "states")
  else
    print "Fetching" ;;
    html <- requests_get "https://www.nps.gov/index.htm" ;;
    list_items <- lift (scrape_states html) ;;
    let state_dict :=
      fold_left
        (fun d item =>
           dict_set (VStr (Py.lower (Py.strip (fst item))))
                    (VStr ("https://www.nps.gov" ++ snd item)) d)
        list_items [] in
    cache_setitem (VStr "states") (VDict state_dict) ;;
    c <- the_CACHE ;;
    save_cache c ;;
    ret (VDict state_dict).

Definition get_site_instance (site_url : value) : M NationalSite :=
  hit <- cache_contains site_url ;;
  if hit : bool then
    print "Using cache" ;;
    cached <- cache_getitem site_url ;;
    lift (json_to_NationalSite cached)
  else
    print "Fetching" ;;
    html <- requests_get (Py.str site_url) ;;
    soup <- lift (scrape_site html) ;;
    let category := hero_designation soup in
    let name := hero_title soup in
    let city := Py.strip (addressLocality soup) in
    let state := Py.strip (addressRegion soup) in
    let address := city ++ ", " ++ state in
    let zipcode := Py.strip (postalCode soup) in
    let phone := Py.strip (telephone soup) in
    let instance :=
      mkNationalSite (VStr category) (VStr name) (VStr address)
                     (VStr zipcode) (VStr phone) in
    cache_setitem site_url (attributes instance) ;;
    c <- the_CACHE ;;
    save_cache c ;;
    ret instance.

(** The loop of the cache-hit branch of [get_sites_for_state]. *)
Fixpoint rebuild_sites (cached : list value) (site_instances : list NationalSite)
  : result (list NationalSite) :=
  match cached with
  | [] => Ok site_instances
  | site :: cached' =>
      rbind (json_to_NationalSite site) (fun instance =>
      rebuild_sites cached' (site_instances ++ [instance])%list)
  end.

(** The loop of its cache-miss branch. *)
Fixpoint visit_headers (headers : list (result string))
    (site_instances : list NationalSite) (site_instances_cache : list value)
  : M (list NationalSite * list value) :=
  match headers with
  | [] => ret (site_instances, site_instances_cache)
  | header :: headers' =>
      href <- lift header ;;
      instance <-
        get_site_instance (VStr ("https://www.nps.gov" ++ href ++ "index.htm")) ;;
      visit_headers headers' (site_instances ++ [instance])%list
                    (site_instances_cache ++ [attributes instance])%list
  end.

Definition get_sites_for_state (state_url : value) : M (list NationalSite) :=
  hit <- cache_contains state_url ;;
  if hit : bool then
    print "Using cache" ;;
    cached <- cache_getitem state_url ;;
    items <- lift (py_iter cached) ;;
    lift (rebuild_sites items [])
  else
    print "Fetching" ;;
    html <- requests_get (Py.str state_url) ;;
    headers <- lift (scrape_headers html) ;;
    both <- visit_headers headers [] [] ;;
    cache_setitem state_url (VList (snd both)) ;;
    c <- the_CACHE ;;
    save_cache c ;;
    ret (fst both).

Definition BASE_URL : string :=
  "http://www.mapquestapi.com/search/v2/radius?key=" ++ API_KEY
  ++ "&radius=10&maxMatches=10&ambiguities=ignore&origin=".

Definition get_nearby_places (site_object : NationalSite) : M value :=
  hit <- cache_contains (zipcode site_object) ;;
  if hit : bool then
    print "Using cache" ;;
    cache_getitem (zipcode site_object)
  else
    print "Fetching" ;;
    response <- requests_get (BASE_URL ++ Py.str (zipcode site_object)) ;;
    results <- lift (response_json response) ;;
    cache_setitem (zipcode site_object) results ;;
    c <- the_CACHE ;;
    save_cache c ;;
    ret results.

End Fetchers.

(** ** The interactive shell

    The two nested [while True] loops of the script read one line per turn.
    They are run as a machine with one state per loop: [step] is the body
    of the loop the shell is in, for the line it read. *)

Inductive shell : Type :=
| StateSelection (states : value)
| SiteSelection (states : value) (sites : list NationalSite) (count : Z)
| Terminated (cause : option exn).

Definition state_prompt : string :=
  "Enter a state name (e.g. Michigan, michigan) or " ++ Py.dquote ++ "exit"
  ++ Py.dquote ++ ": ".

Definition site_prompt : string :=
  "Choose the number for detailed search or " ++ Py.dquote ++ "exit"
  ++ Py.dquote ++ " or " ++ Py.dquote ++ "back" ++ Py.dquote ++ ": ".

Definition rule : string := "------------------------------------".

Definition invalid_state_message : string := "[Error] Enter proper state name".

Definition invalid_input_message : string := "[Error] Invalid input".

(** [input(prompt)] shows the prompt; the line read is the argument of
    [step]. *)
Definition show_prompt (prompt : string) : M unit :=
  fun w => (Ok tt, emit prompt w).

(** [l[i]] on a list *)
Definition list_getitem {A} (l : list A) (i : Z) : result A :=
  let len := Z.of_nat (List.length l) in
  let j := if i <? 0 then i + len else i in
  if (0 <=? j) && (j <? len)
  then match nth_error l (Z.to_nat j) with
       | Some a => Ok a
       | None => Raise IndexError
       end
  else Raise IndexError.

(** [n in range(lo, hi)] *)
Definition in_range (n lo hi : Z) : bool := (lo <=? n) && (n <? hi).

Section Shell.

Context {env : Environment}.

Fixpoint list_sites (sites : list NationalSite) (count : Z) : M Z :=
  match sites with
  | [] => ret count
  | site :: sites' =>
      print ("[" ++ Py.str_of_int count ++ "] " ++ info site) ;;
      list_sites sites' (count + 1)
  end.

Fixpoint list_places (places : list value) (count1 : Z) : M unit :=
  match places with
  | [] => ret tt
  | place :: places' =>
      fields <- lift (getitem_str place "fields") ;;
      line <- lift (nearby_places_info fields) ;;
      print ("[" ++ Py.str_of_int count1 ++ "] " ++ line) ;;
      list_places places' (count1 + 1)
  end.

Definition state_selection (states : value) (line : string) : M shell :=
  show_prompt state_prompt ;;
  let inp := Py.lower line in
  known <- lift (str_in inp states) ;;
  if known : bool then
    state_url <- lift (getitem_str states inp) ;;
    sites <- get_sites_for_state state_url ;;
    print rule ;;
    print ("List of national sites in " ++ inp) ;;
    print rule ;;
    count <- list_sites sites 1 ;;
    ret (SiteSelection states sites count)
  else if String.eqb inp "exit" then
    ret (Terminated None)
  else
    print (invalid_state_message ++ Py.newline) ;;
    ret (StateSelection states).

Definition site_selection (states : value) (sites : list NationalSite)
    (count : Z) (line : string) : M shell :=
  print (Py.newline ++ rule) ;;
  show_prompt site_prompt ;;
  let inp := Py.lower line in
  if Py.isnumeric inp then
    n <- lift (Py.int inp) ;;
    if in_range n 1 (count + 1) then
      site <- lift (list_getitem sites (n - 1)) ;;
      places <- get_nearby_places site ;;
      print rule ;;
      print ("Places near " ++ Py.str (name site)) ;;
      print rule ;;
      results <- lift (getitem_str places "searchResults") ;;
      items <- lift (py_iter results) ;;
      list_places items 1 ;;
      ret (SiteSelection states sites count)
    else
      print invalid_input_message ;;
      ret (SiteSelection states sites count)
  else if String.eqb inp "exit" then
    raise SystemExit
  else if String.eqb inp "back" then
    ret (StateSelection states)
  else
    print invalid_input_message ;;
    ret (SiteSelection states sites count).

(** An exception nothing catches ends the process. *)
Definition settle (outcome : result shell * world) : shell * world :=
  match outcome with
  | (Ok sh, w) => (sh, w)
  | (Raise e, w) => (Terminated (Some e), w)
  end.

Definition step (sh : shell) (line : string) (w : world) : shell * world :=
  match sh with
  | StateSelection states => settle (state_selection states line w)
  | SiteSelection states sites count =>
      settle (site_selection states sites count line w)
  | Terminated cause => (Terminated cause, w)
  end.

(** With nothing left to read, [input] shows its prompt and raises. *)
Definition end_of_input (sh : shell) (w : world) : shell * world :=
  match sh with
  | StateSelection _ =>
      settle ((show_prompt state_prompt ;; raise EOFError) w)
  | SiteSelection _ _ _ =>
      settle ((print (Py.newline ++ rule) ;; show_prompt site_prompt ;;
               raise EOFError) w)
  | Terminated cause => (Terminated cause, w)
  end.

Fixpoint run (lines : list string) (sh : shell) (w : world) : shell * world :=
  match sh with
  | Terminated cause => (Terminated cause, w)
  | _ =>
      match lines with
      | [] => end_of_input sh w
      | line :: lines' => let (sh', w') := step sh line w in run lines' sh' w'
      end
  end.

(** The [__main__] block, for the lines typed at the console. *)
Definition main (lines : list string) (w : world) : shell * world :=
  match build_state_url_dict w with
  | (Ok states, w') => run lines (StateSelection states) w'
  | (Raise e, w') => (Terminated (Some e), w')
  end.

End Shell.

(** ** A small world to run the script in

    One state, Michigan, with one site, and one place near it. *)

Definition cafe_places : value :=
  VDict [(VStr "searchResults",
          VList [VDict [(VStr "fields",
             VDict [(VStr "name", VStr "Cafe");
                    (VStr "group_sic_code_name_ext", VStr "");
                    (VStr "address", VStr "1 Main St");
                    (VStr "city", VStr "Houghton")])]])].

Definition demo : Environment := {|
  API_KEY := "k";
  http_get := fun _ url => Ok url;
  response_json := fun _ => Ok cafe_places;
  scrape_states := fun _ => Ok [(" Michigan ", "/state/mi/index.htm")];
  scrape_site := fun _ =>
    Ok (mkSitePage "National Park" "Isle Royale" " Houghton " "MI" "49931"
                   "(906) 482-0984");
  scrape_headers := fun _ => Ok [Ok "/isro/"]
|}.

Definition fresh : world := mkWorld [] Absent true [] [].

Definition isle_royale : NationalSite :=
  mkNationalSite (VStr "National Park") (VStr "Isle Royale")
                 (VStr "Houghton, MI") (VStr "49931") (VStr "(906) 482-0984").

Definition isle_royale_url : value := VStr "https://www.nps.gov/isro/index.htm".

Definition michigan_url : value := VStr "https://www.nps.gov/state/mi/index.htm".

Definition michigan_only : value := VDict [(VStr "michigan", michigan_url)].

(** A cache whose entry for Isle Royale has lost its phone. *)
Definition phoneless : world :=
  mkWorld
    [(isle_royale_url,
      VDict [(VStr "category", VStr "National Park"); (VStr "name", VStr "Isle Royale");
             (VStr "address", VStr "Houghton, MI"); (VStr "zipcode", VStr "49931")])]
    Absent true [] [].


(** ** Predicates of the statements below *)

(** The keys [json_to_NationalSite] reads, in the order it reads them. *)
Definition site_keys : list string :=
  ["category"; "name"; "address"; "zipcode"; "phone"].

(** The cache file spells out the whole of [CACHE]. *)
Definition on_disk (w : world) : Prop :=
  exists j, json_dumps (VDict (CACHE w)) = Ok j /\ disk w = Document j.

(** Neither [CACHE] nor the cache file changed. *)
Definition untouched (w w' : world) : Prop :=
  CACHE w' = CACHE w /\ disk w' = disk w.

(** At the end of a run from [w]: nothing was written to [CACHE], or the
    file holds all of it, or the run ended in the exception of a save of
    the [CACHE] it left. *)
Definition saved_or_failed {A} (w : world) (outcome : result A * world) : Prop :=
  let (r, w') := outcome in
  untouched w w' \/ on_disk w' \/
  exists e, r = Raise e /\ fst (save_cache (CACHE w') w') = Raise e.

(** An operation that leaves no write to [CACHE] unsaved. *)
Definition saves_its_writes {A} (m : M A) : Prop :=
  forall w, saved_or_failed w (m w).

(** The record the cache-miss branch of [get_site_instance] builds from
    what it read off the page. *)
Definition record_of_page (soup : site_page) : NationalSite :=
  mkNationalSite
    (VStr (hero_designation soup)) (VStr (hero_title soup))
    (VStr (Py.strip (addressLocality soup) ++ ", "
           ++ Py.strip (addressRegion soup)))
    (VStr (Py.strip (postalCode soup))) (VStr (Py.strip (telephone soup))).

(** The line a fetcher prints when it answers from [CACHE]. *)
Definition using_cache : string := "Using cache" ++ Py.newline.

Definition fetching : string := "Fetching" ++ Py.newline.

(** What [CACHE[k] = v] followed by [save_cache(CACHE)] leaves when the
    save goes through. *)
Definition stored (k v : value) (j : json) (w : world) : world :=
  set_disk (Document j) (set_CACHE (dict_set k v (CACHE w)) w).

(** The shell is at site-selection with the count its listing loop left:
    one more than the number of sites. *)
Definition well_counted (sh : shell) : Prop :=
  match sh with
  | SiteSelection _ sites count => count = 1 + Z.of_nat (List.length sites)
  | _ => True
  end.

(** A value that is its own JSON reading: every key of every dict in it is
    a string, and no dict has a key twice. *)
Definition is_str (v : value) : bool :=
  match v with VStr _ => true | _ => false end.

Fixpoint distinct (keys : list value) : bool :=
  match keys with
  | [] => true
  | k :: keys' => negb (existsb (key_eqb k) keys') && distinct keys'
  end.

Fixpoint plain (v : value) : bool :=
  match v with
  | VList l => forallb plain l
  | VDict d =>
      distinct (map fst d)
      && forallb (fun kv => is_str (fst kv) && plain (snd kv)) d
  | _ => true
  end.

(** [CACHE] only got entries added at its end. *)
Definition grows (w w' : world) : Prop :=
  exists added, CACHE w' = (CACHE w ++ added)%list.

(** [CACHE] is as it was, or got one entry under [k], which it did not
    hold, added at its end. *)
Definition stores_at_most (k : value) (w w' : world) : Prop :=
  CACHE w' = CACHE w \/
  exists v, dict_get k (CACHE w) = None /\ CACHE w' = (CACHE w ++ [(k, v)])%list.

(** Only the console changed. *)
Definition quiet (w w' : world) : Prop :=
  CACHE w' = CACHE w /\ disk w' = disk w /\ writable w' = writable w /\
  requests w' = requests w.

(** [CACHE] is what [open_cache] gives: the state the statement
    [CACHE = open_cache()] leaves when the script starts. *)
Definition loaded (w : world) : Prop :=
  open_cache w = (Ok (VDict (CACHE w)), w).

(** What the decoder of API responses gives is a JSON value. *)
Definition plain_responses {env : Environment} : Prop :=
  forall response v, response_json response = Ok v -> plain v = true.

(** The directory the cache-miss branch of [build_state_url_dict] builds
    from the links of the page. *)
Definition directory_of (list_items : list (string * string)) : dict :=
  fold_left
    (fun d item =>
       dict_set (VStr (Py.lower (Py.strip (fst item))))
                (VStr ("https://www.nps.gov" ++ snd item)) d)
    list_items [].

(** The line picks something: at state-selection a key of the directory,
    at site-selection a number that passes the range test. *)
Definition selects (sh : shell) (line : string) : Prop :=
  match sh with
  | StateSelection states => str_in (Py.lower line) states = Ok true
  | SiteSelection _ _ count =>
      Py.isnumeric (Py.lower line) = true /\
      exists n, Py.int (Py.lower line) = Ok n /\ in_range n 1 (count + 1) = true
  | Terminated _ => False
  end.

(** The fetcher has to go to the network for [k]. *)
Definition absent (k : value) (w : world) : bool :=
  hashable k && match dict_get k (CACHE w) with Some _ => false | None => true end.

(** The keys [nearby_places_info] reads, in the order it reads them. *)
Definition place_keys : list string :=
  ["name"; "group_sic_code_name_ext"; "address"; "city"].

Definition is_dict (v : value) : bool :=
  match v with VDict _ => true | _ => false end.

(** The value of a result, [None] for an exception. *)
Definition fst_value (r : result value) : value :=
  match r with Ok v => v | Raise _ => VNone end.

(** The statements of the site-selection loop under its range test, for
    the site the number picked. *)
Definition show_places {env : Environment} (states : value)
    (sites : list NationalSite) (count : Z) (site : NationalSite) : M shell :=
  (places <- get_nearby_places site ;;
   print rule ;;
   print ("Places near " ++ Py.str (name site)) ;;
   print rule ;;
   results <- lift (getitem_str places "searchResults") ;;
   items <- lift (py_iter results) ;;
   list_places items 1 ;;
   ret (SiteSelection states sites count))%py.

(** The line the listing loop prints for a site. *)
Definition listing_line (count : Z) (site : NationalSite) : string :=
  ("[" ++ Py.str_of_int count ++ "] " ++ info site) ++ Py.newline.

(** What the loop over the places prints for one place. *)
Definition describe (place : value) : result string :=
  rbind (getitem_str place "fields") nearby_places_info.

(** The lines of that loop, numbered from [count1]. *)
Fixpoint numbered (count1 : Z) (descriptions : list string) : list string :=
  match descriptions with
  | [] => []
  | line :: rest =>
      (("[" ++ Py.str_of_int count1 ++ "] " ++ line) ++ Py.newline)
      :: numbered (count1 + 1) rest
  end.

Definition emit_all (lines : list string) (w : world) : world :=
  fold_left (fun w line => emit line w) lines w.

Definition is_ok {A} (r : result A) : bool :=
  match r with Ok _ => true | Raise _ => false end.

(** * Properties *)

(** ** The formatter *)

Section Formatter.

(** C1, as the script has it: a record that holds the four keys [name],
    [group_sic_code_name_ext], [address] and [city] is formatted as
    "name (category): address, city", where a category, address or city
    whose value is empty (false in Python) is replaced by its placeholder,
    and every other value, the name always, is put out as [str] gives it. *)
Theorem nearby_places_info_placeholders :
  forall (d : dict) (n c a ci : value),
    dict_get (VStr "name") d = Some n ->
    dict_get (VStr "group_sic_code_name_ext") d = Some c ->
    dict_get (VStr "address") d = Some a ->
    dict_get (VStr "city") d = Some ci ->
    nearby_places_info (VDict d) =
      Ok (Py.str n ++ " ("
          ++ (if Py.truthy c then Py.str c else "no category") ++ "): "
          ++ (if Py.truthy a then Py.str a else "no address") ++ ", "
          ++ (if Py.truthy ci then Py.str ci else "no city")).
Proof.
  intros d n c a ci Hn Hc Ha Hci.
  unfold nearby_places_info, getitem_str.
  rewrite Hn, Hc, Ha, Hci. cbn [rbind].
  destruct (Py.truthy c), (Py.truthy a), (Py.truthy ci); reflexivity.
Qed.

Lemma nearby_places_info_placeholders_witness :
  nearby_places_info
    (VDict [(VStr "name", VStr "Cafe"); (VStr "group_sic_code_name_ext", VStr "");
            (VStr "address", VStr "1 Main St"); (VStr "city", VStr "")])
  = Ok "Cafe (no category): 1 Main St, no city".
Proof.
  apply (nearby_places_info_placeholders
           [(VStr "name", VStr "Cafe"); (VStr "group_sic_code_name_ext", VStr "");
            (VStr "address", VStr "1 Main St"); (VStr "city", VStr "")]
           (VStr "Cafe") (VStr "") (VStr "1 Main St") (VStr ""));
    reflexivity.
Defined.

(** C1, as the specification has it, fails: a record without the key
    [city] is not formatted, the lookup raises. *)
Lemma nearby_places_info_missing_city :
  nearby_places_info
    (VDict [(VStr "name", VStr "Cafe");
            (VStr "group_sic_code_name_ext", VStr "Restaurants");
            (VStr "address", VStr "1 Main St")])
  = Raise (KeyError (VStr "city"))
  /\ ~ (exists description,
         nearby_places_info
           (VDict [(VStr "name", VStr "Cafe");
                   (VStr "group_sic_code_name_ext", VStr "Restaurants");
                   (VStr "address", VStr "1 Main St")])
         = Ok description).
Proof. split; [reflexivity|]. intros [description H]. discriminate H. Qed.

(** An empty name has no placeholder. *)
Lemma nearby_places_info_empty_name :
  nearby_places_info
    (VDict [(VStr "name", VStr ""); (VStr "group_sic_code_name_ext", VStr "Restaurants");
            (VStr "address", VStr "1 Main St"); (VStr "city", VStr "Houghton")])
  = Ok " (Restaurants): 1 Main St, Houghton".
Proof. reflexivity. Qed.

(** A key that is missing raises, whichever of the four it is. *)
Lemma nearby_places_info_missing_key :
  forall (d : dict) (k : string),
    In k ["name"; "group_sic_code_name_ext"; "address"; "city"] ->
    dict_get (VStr k) d = None ->
    exists k', dict_get (VStr k') d = None /\
               nearby_places_info (VDict d) = Raise (KeyError (VStr k')).
Proof.
  intros d k Hin Hk.
  unfold nearby_places_info, getitem_str.
  destruct (dict_get (VStr "name") d) eqn:Hn; [|eauto].
  destruct (dict_get (VStr "group_sic_code_name_ext") d) eqn:Hc; [|eauto].
  destruct (dict_get (VStr "address") d) eqn:Ha; [|eauto].
  destruct (dict_get (VStr "city") d) eqn:Hci; [|eauto].
  simpl in Hin.
  destruct Hin as [<-|[<-|[<-|[<-|[]]]]]; congruence.
Qed.

End Formatter.

(** ** Site records *)

Section Records.

Lemma site_round_trip_value :
  forall site : NationalSite,
    json_to_NationalSite (attributes site) = Ok site.
Proof. intros [c n a z p]. reflexivity. Qed.

(** C6: a record turned into its attribute mapping and read back from it
    has the five attributes it started with, whatever they are (five
    strings in particular). *)
Theorem site_round_trip :
  forall c n a z p : value,
    exists site,
      json_to_NationalSite (attributes (mkNationalSite c n a z p)) = Ok site /\
      category site = c /\ name site = n /\ address site = a /\
      zipcode site = z /\ phone site = p.
Proof.
  intros c n a z p. exists (mkNationalSite c n a z p).
  split; [apply site_round_trip_value|]. repeat split.
Qed.

(** The same through the text of the cache file, for five strings. *)
Lemma site_round_trip_through_json :
  forall c n a z p : string,
    let site := mkNationalSite (VStr c) (VStr n) (VStr a) (VStr z) (VStr p) in
    exists j, json_dumps (attributes site) = Ok j /\
              json_to_NationalSite (json_loads j) = Ok site.
Proof. intros. eexists. split; reflexivity. Qed.

End Records.

(** ** The cache file *)

Section CacheFile.



(** A save writes the whole dict over whatever the file held. *)
Lemma save_cache_overwrites :
  forall (c : dict) (w : world) (j : json),
    json_dumps (VDict c) = Ok j ->
    writable w = true ->
    save_cache c w = (Ok tt, set_disk (Document j) w).
Proof.
  intros c w j Hj Hw. unfold save_cache, bind, lift.
  rewrite Hj, Hw. reflexivity.
Qed.

End CacheFile.


(** ** Dictionaries *)

Section Dicts.

Lemma key_eqb_refl : forall k, hashable k = true -> key_eqb k k = true.
Proof.
  intros [| b | z | s | l | d] H; simpl in *; try discriminate; auto.
  - destruct b; reflexivity.
  - apply Z.eqb_refl.
  - apply String.eqb_refl.
Qed.

Lemma dict_get_set :
  forall k v d, hashable k = true -> dict_get k (dict_set k v d) = Some v.
Proof.
  intros k v d Hk. induction d as [|[k' v'] d IH]; simpl.
  - now rewrite key_eqb_refl.
  - destruct (key_eqb k' k) eqn:E; simpl; rewrite E; auto.
Qed.

End Dicts.

(** ** Writing the cache file and reading it back *)

Section ValueInduction.

Variable P : value -> Prop.
Hypothesis HNone : P VNone.
Hypothesis HBool : forall b, P (VBool b).
Hypothesis HInt : forall z, P (VInt z).
Hypothesis HStr : forall s, P (VStr s).
Hypothesis HList : forall l, Forall P l -> P (VList l).
Hypothesis HDict : forall d, Forall (fun kv => P (snd kv)) d -> P (VDict d).

Fixpoint value_nested_ind (v : value) : P v :=
  match v with
  | VNone => HNone
  | VBool b => HBool b
  | VInt z => HInt z
  | VStr s => HStr s
  | VList l =>
      HList l ((fix go (l : list value) : Forall P l :=
                  match l with
                  | [] => Forall_nil P
                  | x :: l' => Forall_cons x (value_nested_ind x) (go l')
                  end) l)
  | VDict d =>
      HDict d ((fix go (d : list (value * value))
                  : Forall (fun kv => P (snd kv)) d :=
                  match d with
                  | [] => Forall_nil _
                  | kv :: d' =>
                      Forall_cons kv (value_nested_ind (snd kv)) (go d')
                  end) d)
  end.

End ValueInduction.

(** [json.loads(json.dumps(v))] is [v] when [v] is plain. *)

Lemma dict_set_fresh :
  forall k v d,
    existsb (fun k' => key_eqb k' k) (map fst d) = false ->
    dict_set k v d = (d ++ [(k, v)])%list.
Proof.
  induction d as [|[k' v'] d IH]; simpl; intros H; [reflexivity|].
  apply orb_false_iff in H as [H1 H2]. rewrite H1. now rewrite IH.
Qed.

Lemma distinct_before :
  forall (l1 l2 : list value) (k : value),
    distinct (l1 ++ k :: l2) = true ->
    existsb (fun k' => key_eqb k' k) l1 = false.
Proof.
  induction l1 as [|a l1 IH]; simpl; intros l2 k H; [reflexivity|].
  apply andb_true_iff in H as [Ha Hd].
  apply negb_true_iff in Ha. rewrite existsb_app in Ha.
  apply orb_false_iff in Ha as [_ Ha]. simpl in Ha.
  apply orb_false_iff in Ha as [Ha _].
  rewrite Ha. simpl. eapply IH, Hd.
Qed.

Lemma fold_dict_set_distinct :
  forall (entries acc : dict),
    distinct (map fst (acc ++ entries)) = true ->
    fold_left (fun d kv => dict_set (fst kv) (snd kv) d) entries acc
      = (acc ++ entries)%list.
Proof.
  induction entries as [|[k v] entries IH]; intros acc H; simpl.
  - now rewrite app_nil_r.
  - rewrite dict_set_fresh.
    + rewrite IH; rewrite <- app_assoc; [reflexivity|exact H].
    + rewrite map_app in H. simpl in H. eapply distinct_before, H.
Qed.

Lemma fold_loads :
  forall (m : list (string * json)) (acc : dict),
    fold_left (fun d kv => dict_set (VStr (fst kv)) (json_loads (snd kv)) d) m acc
    = fold_left (fun d kv => dict_set (fst kv) (snd kv) d)
        (map (fun kv => (VStr (fst kv), json_loads (snd kv))) m) acc.
Proof. induction m as [|kv m IH]; intros acc; simpl; auto. Qed.

Lemma json_round_trip :
  forall v, plain v = true ->
    exists j, json_dumps v = Ok j /\ json_loads j = v.
Proof.
  induction v as [| b | z | s | l IH | d IH] using value_nested_ind;
    intros Hp; try (eexists; split; reflexivity).
  - assert (H : exists js, rmap json_dumps l = Ok js /\ map json_loads js = l).
    { cbn [plain] in Hp. induction IH as [|x l Hx _ IHl]; cbn in Hp |- *.
      - exists []. split; reflexivity.
      - apply andb_true_iff in Hp as [Hpx Hpl].
        destruct (Hx Hpx) as [j [Hj1 Hj2]].
        destruct (IHl Hpl) as [js [Hjs1 Hjs2]].
        exists (j :: js). rewrite Hj1. cbn. rewrite Hjs1. cbn.
        split; [reflexivity|]. now rewrite Hj2, Hjs2. }
    destruct H as [js [H1 H2]].
    exists (JArray js). cbn [json_dumps json_loads]. rewrite H1. cbn.
    split; [reflexivity|]. now rewrite H2.
  - cbn [plain] in Hp. apply andb_true_iff in Hp as [Hd Hp].
    assert (H : exists m,
               rmap (fun kv => rbind (json_key (fst kv)) (fun k =>
                               rbind (json_dumps (snd kv)) (fun j => Ok (k, j)))) d
               = Ok m
               /\ map (fun kv => (VStr (fst kv), json_loads (snd kv))) m = d).
    { clear Hd. induction IH as [|[k x] d Hx _ IHd]; cbn in Hp |- *.
      - exists []. split; reflexivity.
      - apply andb_true_iff in Hp as [Hpx Hpl].
        apply andb_true_iff in Hpx as [Hk Hpx].
        destruct k as [| | |s| |]; try discriminate Hk.
        cbn [fst snd] in Hx.
        destruct (Hx Hpx) as [j [Hj1 Hj2]].
        destruct (IHd Hpl) as [m [Hm1 Hm2]].
        exists ((s, j) :: m). cbn. rewrite Hj1. cbn. rewrite Hm1. cbn.
        split; [reflexivity|]. now rewrite Hj2, Hm2. }
    destruct H as [m [H1 H2]].
    exists (JObject m). cbn [json_dumps json_loads]. rewrite H1. cbn [rbind].
    split; [reflexivity|]. f_equal.
    rewrite fold_loads, H2. apply fold_dict_set_distinct. exact Hd.
Qed.


(** ** The fetchers: one call *)

Section FetcherSteps.

Context {env : Environment}.

Ltac unfold_ops :=
  unfold save_cache, cache_contains, cache_getitem, cache_setitem, print,
    the_CACHE, requests_get, show_prompt, bind, lift, ret, raise in *;
  cbn [CACHE disk writable stdout requests emit set_CACHE set_disk log_request
       fst snd] in *.

(** Splits on the first test a hypothesis about a run is stuck on. *)
Ltac split_run H :=
  match type of H with
  | context [match ?x with _ => _ end] =>
      lazymatch x with
      | context [match _ with _ => _ end] => fail
      | _ => destruct x eqn:?
      end
  end;
  cbn [CACHE disk writable stdout requests emit set_CACHE set_disk log_request
       fst snd rbind] in *;
  try discriminate H.

Lemma get_site_instance_hit :
  forall (site_url cached : value) (w : world),
    hashable site_url = true ->
    dict_get site_url (CACHE w) = Some cached ->
    get_site_instance site_url w
      = (json_to_NationalSite cached, emit using_cache w).
Proof.
  intros site_url cached w Hh Hg.
  unfold get_site_instance. unfold_ops. rewrite Hh, Hg. cbn.
  rewrite Hg. reflexivity.
Qed.

Lemma get_site_instance_ok :
  forall (site_url : value) (w w1 : world) (site : NationalSite),
    get_site_instance site_url w = (Ok site, w1) ->
    hashable site_url = true /\
    ((exists cached,
         dict_get site_url (CACHE w) = Some cached /\
         json_to_NationalSite cached = Ok site /\
         w1 = emit using_cache w)
     \/
     (dict_get site_url (CACHE w) = None /\
      exists html soup j,
        http_get (requests w) (Py.str site_url) = Ok html /\
        scrape_site html = Ok soup /\
        site = record_of_page soup /\
        json_dumps (VDict (dict_set site_url (attributes site) (CACHE w))) = Ok j /\
        writable w = true /\
        w1 = stored site_url (attributes site) j
               (log_request (Py.str site_url) (emit fetching w)))).
Proof.
  intros site_url w w1 site H.
  unfold get_site_instance in H. unfold_ops.
  repeat split_run H.
  - split; [reflexivity|]. left. exists v0.
    injection H as H <-. repeat split; congruence.
  - split; [reflexivity|]. right. split; [reflexivity|].
    injection H as <- <-. do 3 eexists. repeat split; eauto.
Qed.
Lemma build_state_url_dict_hit :
  forall (cached : value) (w : world),
    dict_get (VStr "states") (CACHE w) = Some cached ->
    build_state_url_dict w = (Ok cached, emit using_cache w).
Proof.
  intros cached w Hg.
  unfold build_state_url_dict. unfold_ops. cbn. rewrite Hg. cbn.
  rewrite Hg. reflexivity.
Qed.

Lemma build_state_url_dict_ok :
  forall (w w1 : world) (states : value),
    build_state_url_dict w = (Ok states, w1) ->
    (dict_get (VStr "states") (CACHE w) = Some states /\
     w1 = emit using_cache w)
    \/
    (dict_get (VStr "states") (CACHE w) = None /\
     exists j,
       json_dumps (VDict (dict_set (VStr "states") states (CACHE w))) = Ok j /\
       w1 = stored (VStr "states") states j
              (log_request "https://www.nps.gov/index.htm" (emit fetching w))).
Proof.
  intros w w1 states H.
  unfold build_state_url_dict in H. unfold_ops. cbn [hashable] in H.
  repeat split_run H.
  - left. injection H as <- <-. split; [congruence|reflexivity].
  - right. split; [reflexivity|]. injection H as <- <-. eauto.
Qed.

Lemma get_nearby_places_hit :
  forall (site_object : NationalSite) (cached : value) (w : world),
    hashable (zipcode site_object) = true ->
    dict_get (zipcode site_object) (CACHE w) = Some cached ->
    get_nearby_places site_object w = (Ok cached, emit using_cache w).
Proof.
  intros site_object cached w Hh Hg.
  unfold get_nearby_places. unfold_ops. rewrite Hh, Hg. cbn.
  rewrite Hg. reflexivity.
Qed.

Lemma get_nearby_places_ok :
  forall (site_object : NationalSite) (w w1 : world) (results : value),
    get_nearby_places site_object w = (Ok results, w1) ->
    hashable (zipcode site_object) = true /\
    ((dict_get (zipcode site_object) (CACHE w) = Some results /\
      w1 = emit using_cache w)
     \/
     (dict_get (zipcode site_object) (CACHE w) = None /\
      exists response j,
        http_get (requests w) (BASE_URL ++ Py.str (zipcode site_object))
          = Ok response /\
        response_json response = Ok results /\
        json_dumps (VDict (dict_set (zipcode site_object) results (CACHE w)))
          = Ok j /\
        w1 = stored (zipcode site_object) results j
               (log_request (BASE_URL ++ Py.str (zipcode site_object))
                            (emit fetching w)))).
Proof.
  intros site_object w w1 results H.
  unfold get_nearby_places in H. unfold_ops.
  repeat split_run H.
  - split; [reflexivity|]. left. injection H as <- <-.
    split; [congruence|reflexivity].
  - split; [reflexivity|]. right. split; [reflexivity|].
    injection H as <- <-. do 2 eexists. repeat split; eauto.
Qed.

(** The two loops of [get_sites_for_state] *)

Lemma rebuild_sites_attributes :
  forall (sites acc : list NationalSite),
    rebuild_sites (map attributes sites) acc = Ok (acc ++ sites)%list.
Proof.
  induction sites as [|site sites IH]; intros acc; cbn [map rebuild_sites].
  - now rewrite app_nil_r.
  - rewrite site_round_trip_value. cbn [rbind]. rewrite IH.
    now rewrite <- app_assoc.
Qed.

Lemma visit_headers_ok :
  forall (headers : list (result string)) (acc : list NationalSite)
         (w w1 : world) (sites : list NationalSite) (cached : list value),
    visit_headers headers acc (map attributes acc) w = (Ok (sites, cached), w1) ->
    cached = map attributes sites.
Proof.
  induction headers as [|header headers IH]; intros acc w w1 sites cached H.
  - cbn in H. injection H as <- <- <-. reflexivity.
  - cbn [visit_headers] in H. unfold bind at 1, lift in H.
    destruct header as [href|e]; [|discriminate H].
    unfold bind at 1 in H.
    destruct (get_site_instance _ w) as [[instance|e] w0]; [|discriminate H].
    apply (IH (acc ++ [instance])%list w0 w1).
    now rewrite map_app.
Qed.

Lemma get_sites_for_state_hit :
  forall (state_url cached : value) (w : world),
    hashable state_url = true ->
    dict_get state_url (CACHE w) = Some cached ->
    get_sites_for_state state_url w
      = (rbind (py_iter cached) (fun items => rebuild_sites items []),
         emit using_cache w).
Proof.
  intros state_url cached w Hh Hg.
  unfold get_sites_for_state. unfold_ops. rewrite Hh, Hg. cbn.
  rewrite Hg. destruct (py_iter cached); reflexivity.
Qed.

Lemma get_sites_for_state_ok :
  forall (state_url : value) (w w1 : world) (sites : list NationalSite),
    get_sites_for_state state_url w = (Ok sites, w1) ->
    hashable state_url = true /\
    ((exists cached items,
         dict_get state_url (CACHE w) = Some cached /\
         py_iter cached = Ok items /\
         rebuild_sites items [] = Ok sites /\
         w1 = emit using_cache w)
     \/
     (dict_get state_url (CACHE w) = None /\
      exists j w0,
        json_dumps
          (VDict (dict_set state_url (VList (map attributes sites)) (CACHE w0)))
          = Ok j /\
        w1 = stored state_url (VList (map attributes sites)) j w0)).
Proof.
  intros state_url w w1 sites H.
  unfold get_sites_for_state in H. unfold_ops.
  split_run H. split; [reflexivity|].
  split_run H.
  - left. repeat split_run H. injection H as H <-.
    injection Heqo as <-. exists v0, a. repeat split; auto.
  - right. split; [reflexivity|].
    repeat split_run H.
    match goal with
    | Hv : visit_headers _ _ _ _ = (Ok ?both, _) |- _ =>
        destruct both as [sites0 cached];
        apply (visit_headers_ok _ []) in Hv; subst cached
    end.
    cbn [fst snd] in *. injection H as <- <-. eauto.
Qed.

End FetcherSteps.

(** ** The fetchers: a second call *)

Section SecondCall.

Context {env : Environment}.

Lemma get_site_instance_again :
  forall (site_url : value) (w w1 : world) (site : NationalSite),
    get_site_instance site_url w = (Ok site, w1) ->
    get_site_instance site_url w1 = (Ok site, emit using_cache w1).
Proof.
  intros site_url w w1 site H.
  apply get_site_instance_ok in H as [Hh [[cached [Hg [Hs ->]]]|[_ Hm]]].
  - rewrite (get_site_instance_hit site_url cached); auto. now rewrite Hs.
  - destruct Hm as (html & soup & j & _ & _ & _ & _ & _ & ->).
    rewrite (get_site_instance_hit site_url (attributes site)); auto.
    + now rewrite site_round_trip_value.
    + apply dict_get_set, Hh.
Qed.

Lemma build_state_url_dict_again :
  forall (w w1 : world) (states : value),
    build_state_url_dict w = (Ok states, w1) ->
    build_state_url_dict w1 = (Ok states, emit using_cache w1).
Proof.
  intros w w1 states H.
  apply build_state_url_dict_ok in H as [[Hg ->]|[_ [j [_ ->]]]];
    apply build_state_url_dict_hit; auto.
  now apply dict_get_set.
Qed.

Lemma get_nearby_places_again :
  forall (site_object : NationalSite) (w w1 : world) (results : value),
    get_nearby_places site_object w = (Ok results, w1) ->
    get_nearby_places site_object w1 = (Ok results, emit using_cache w1).
Proof.
  intros site_object w w1 results H.
  apply get_nearby_places_ok in H as [Hh [[Hg ->]|[_ Hm]]].
  - now apply get_nearby_places_hit.
  - destruct Hm as (response & j & _ & _ & _ & ->).
    apply get_nearby_places_hit; auto. now apply dict_get_set.
Qed.

Lemma get_sites_for_state_again :
  forall (state_url : value) (w w1 : world) (sites : list NationalSite),
    get_sites_for_state state_url w = (Ok sites, w1) ->
    get_sites_for_state state_url w1 = (Ok sites, emit using_cache w1).
Proof.
  intros state_url w w1 sites H.
  apply get_sites_for_state_ok in H as [Hh [Hhit|[_ Hm]]].
  - destruct Hhit as (cached & items & Hg & Hi & Hr & ->).
    rewrite (get_sites_for_state_hit state_url cached); auto.
    now rewrite Hi; cbn [rbind]; rewrite Hr.
  - destruct Hm as (j & w0 & _ & ->).
    rewrite (get_sites_for_state_hit state_url (VList (map attributes sites)));
      auto.
    + cbn [py_iter rbind]. now rewrite rebuild_sites_attributes.
    + now apply dict_get_set.
Qed.

(** C3: a fetch that returned, called again in the world it left, returns
    the same result; the second call sends no request and leaves [CACHE]
    and the cache file as they were.  This holds of the directory, of a
    site, of the sites of a state and of the places near a site. *)
Theorem second_fetch_is_served_from_cache :
  (forall w w1 states,
      build_state_url_dict w = (Ok states, w1) ->
      exists w2, build_state_url_dict w1 = (Ok states, w2) /\
                 requests w2 = requests w1 /\ untouched w1 w2)
  /\ (forall site_url w w1 site,
      get_site_instance site_url w = (Ok site, w1) ->
      exists w2, get_site_instance site_url w1 = (Ok site, w2) /\
                 requests w2 = requests w1 /\ untouched w1 w2)
  /\ (forall state_url w w1 sites,
      get_sites_for_state state_url w = (Ok sites, w1) ->
      exists w2, get_sites_for_state state_url w1 = (Ok sites, w2) /\
                 requests w2 = requests w1 /\ untouched w1 w2)
  /\ (forall site_object w w1 results,
      get_nearby_places site_object w = (Ok results, w1) ->
      exists w2, get_nearby_places site_object w1 = (Ok results, w2) /\
                 requests w2 = requests w1 /\ untouched w1 w2).
Proof.
  repeat split; intros; eexists (emit using_cache w1);
    (split; [|split; [reflexivity|split; reflexivity]]).
  - eapply build_state_url_dict_again; eauto.
  - eapply get_site_instance_again; eauto.
  - eapply get_sites_for_state_again; eauto.
  - eapply get_nearby_places_again; eauto.
Qed.

(** C4: when a call for a state URL that [CACHE] did not hold returned,
    the next call for that URL is answered from [CACHE] and returns the
    same records in the same order. *)
Theorem cache_hit_keeps_the_order_of_the_miss :
  forall (state_url : value) (w w1 : world) (sites : list NationalSite),
    dict_get state_url (CACHE w) = None ->
    get_sites_for_state state_url w = (Ok sites, w1) ->
    dict_get state_url (CACHE w1) = Some (VList (map attributes sites)) /\
    get_sites_for_state state_url w1 = (Ok sites, emit using_cache w1).
Proof.
  intros state_url w w1 sites Hmiss H.
  pose proof (get_sites_for_state_again _ _ _ _ H) as Hagain.
  apply get_sites_for_state_ok in H as [Hh [Hhit|[_ Hm]]].
  - destruct Hhit as (cached & _ & Hg & _). congruence.
  - destruct Hm as (j & w0 & _ & ->).
    split; [now apply dict_get_set|exact Hagain].
Qed.

End SecondCall.

Lemma second_fetch_is_served_from_cache_witness :
  exists w2,
    get_nearby_places (env := demo) isle_royale
      (snd (get_nearby_places (env := demo) isle_royale fresh))
    = (fst (get_nearby_places (env := demo) isle_royale fresh), w2)
    /\ requests w2
       = requests (snd (get_nearby_places (env := demo) isle_royale fresh)).
Proof.
  destruct (proj2 (proj2 (proj2 (second_fetch_is_served_from_cache (env := demo))))
              isle_royale fresh
              (snd (get_nearby_places (env := demo) isle_royale fresh))
              cafe_places)
    as [w2 [H2 [Hr _]]].
  - vm_compute. reflexivity.
  - exists w2. split; [exact H2|exact Hr].
Defined.

Lemma cache_hit_keeps_the_order_of_the_miss_witness :
  get_sites_for_state (env := demo) michigan_url
    (snd (get_sites_for_state (env := demo) michigan_url fresh))
  = (Ok [isle_royale],
     emit using_cache (snd (get_sites_for_state (env := demo) michigan_url fresh))).
Proof.
  apply (cache_hit_keeps_the_order_of_the_miss (env := demo) michigan_url fresh).
  - reflexivity.
  - vm_compute. reflexivity.
Defined.

(** ** What a site fetch builds and what it trusts *)

Section SiteFetch.

Context {env : Environment}.

(** C9: a record that [get_site_instance] returns for a URL that [CACHE]
    did not hold has as its address the locality and the region read off
    the page, each stripped, joined by a comma and a space; the mapping
    stored under the URL has the same address. *)
Theorem miss_address_is_locality_comma_region :
  forall (site_url : value) (w w1 : world) (site : NationalSite),
    dict_get site_url (CACHE w) = None ->
    get_site_instance site_url w = (Ok site, w1) ->
    exists html soup,
      http_get (requests w) (Py.str site_url) = Ok html /\
      scrape_site html = Ok soup /\
      address site
        = VStr (Py.strip (addressLocality soup) ++ ", "
                ++ Py.strip (addressRegion soup)) /\
      dict_get site_url (CACHE w1) = Some (attributes site).
Proof.
  intros site_url w w1 site Hmiss H.
  apply get_site_instance_ok in H as [Hh [[cached [Hg _]]|[_ Hm]]];
    [congruence|].
  destruct Hm as (html & soup & j & Hhtml & Hsoup & -> & _ & _ & ->).
  exists html, soup. repeat split; auto.
  now apply dict_get_set.
Qed.

(** C10: when the mapping cached under a URL lacks one of the five keys,
    [get_site_instance] answers from [CACHE] and raises the [KeyError] of
    a key that is missing; nothing is fetched and [CACHE] is not touched. *)
Theorem cached_site_needs_all_five_keys :
  forall (site_url : value) (w : world) (d : dict) (k : string),
    hashable site_url = true ->
    dict_get site_url (CACHE w) = Some (VDict d) ->
    In k site_keys ->
    dict_get (VStr k) d = None ->
    exists k',
      In k' site_keys /\ dict_get (VStr k') d = None /\
      get_site_instance site_url w
        = (Raise (KeyError (VStr k')), emit using_cache w).
Proof.
  intros site_url w d k Hh Hg Hin Hk.
  rewrite (get_site_instance_hit site_url (VDict d)) by assumption.
  unfold json_to_NationalSite, getitem_str, site_keys in *.
  destruct (dict_get (VStr "category") d) eqn:Hc;
    [|exists "category"; simpl; auto].
  destruct (dict_get (VStr "name") d) eqn:Hn;
    [|exists "name"; simpl; auto].
  destruct (dict_get (VStr "address") d) eqn:Ha;
    [|exists "address"; simpl; auto].
  destruct (dict_get (VStr "zipcode") d) eqn:Hz;
    [|exists "zipcode"; simpl; auto 6].
  destruct (dict_get (VStr "phone") d) eqn:Hp;
    [|exists "phone"; simpl; auto 7].
  simpl in Hin. destruct Hin as [<-|[<-|[<-|[<-|[<-|[]]]]]]; congruence.
Qed.

End SiteFetch.

Lemma miss_address_is_locality_comma_region_witness :
  address (mkNationalSite (VStr "National Park") (VStr "Isle Royale")
             (VStr "Houghton, MI") (VStr "49931") (VStr "(906) 482-0984"))
  = VStr "Houghton, MI"
  /\ exists html soup,
      http_get (Environment := demo) (requests fresh) (Py.str isle_royale_url)
        = Ok html /\
      scrape_site (Environment := demo) html = Ok soup /\
      address isle_royale
        = VStr (Py.strip (addressLocality soup) ++ ", "
                ++ Py.strip (addressRegion soup)).
Proof.
  split; [reflexivity|].
  destruct (miss_address_is_locality_comma_region (env := demo)
              isle_royale_url fresh
              (snd (get_site_instance (env := demo) isle_royale_url fresh))
              isle_royale)
    as (html & soup & Hh & Hs & Ha & _).
  - reflexivity.
  - vm_compute. reflexivity.
  - exists html, soup. auto.
Defined.

Lemma cached_site_needs_all_five_keys_witness :
  exists k',
    In k' site_keys /\
    get_site_instance (env := demo) isle_royale_url phoneless
      = (Raise (KeyError (VStr k')), emit using_cache phoneless).
Proof.
  destruct (cached_site_needs_all_five_keys (env := demo) isle_royale_url
              phoneless
              [(VStr "category", VStr "National Park");
               (VStr "name", VStr "Isle Royale");
               (VStr "address", VStr "Houghton, MI");
               (VStr "zipcode", VStr "49931")] "phone")
    as (k' & Hin & _ & Hrun).
  - reflexivity.
  - reflexivity.
  - simpl. auto 6.
  - reflexivity.
  - exists k'. auto.
Defined.

(** ** Every write to the cache is saved *)

Section Durability.

Context {env : Environment}.

Lemma untouched_refl : forall w, untouched w w.
Proof. now split. Qed.

Lemma saves_ret : forall {A} (a : A), saves_its_writes (ret a).
Proof. intros A a w. left. apply untouched_refl. Qed.

Lemma saves_lift : forall {A} (r : result A), saves_its_writes (lift r).
Proof. intros A r w. left. apply untouched_refl. Qed.

Lemma saves_print : forall s, saves_its_writes (print s).
Proof. intros s w. left. now split. Qed.

Lemma saves_requests_get : forall url, saves_its_writes (requests_get url).
Proof. intros url w. left. now split. Qed.

Lemma saves_cache_contains : forall k, saves_its_writes (cache_contains k).
Proof.
  intros k w. unfold cache_contains.
  destruct (hashable k); left; apply untouched_refl.
Qed.

Lemma saves_cache_getitem : forall k, saves_its_writes (cache_getitem k).
Proof.
  intros k w. unfold cache_getitem.
  destruct (hashable k); [destruct (dict_get k (CACHE w))|];
    left; apply untouched_refl.
Qed.

Lemma saves_bind :
  forall {A B} (m : M A) (k : A -> M B),
    saves_its_writes m ->
    (forall a, saves_its_writes (k a)) ->
    saves_its_writes (bind m k).
Proof.
  intros A B m k Hm Hk w. specialize (Hm w). unfold bind.
  destruct (m w) as [[a|e] w1].
  2: { unfold saved_or_failed in *.
       destruct Hm as [Hm|[Hm|[e' [He Hs]]]]; auto.
       right. right. exists e. injection He as <-. auto. }
  specialize (Hk a w1). destruct (k a w1) as [r w2].
  unfold saved_or_failed in *.
  destruct Hk as [[Hc Hd]|[Hk|Hk]]; auto.
  destruct Hm as [[Hc' Hd']|[[j [Hj Hdj]]|[e [He _]]]].
  - left. split; congruence.
  - right. left. exists j. split; congruence.
  - discriminate He.
Qed.

(** The two statements every cache miss ends with: [CACHE[k] = v], then
    [save_cache(CACHE)]. *)
Lemma saves_store :
  forall {A} (k v : value) (a : A),
    saves_its_writes
      (cache_setitem k v ;; c <- the_CACHE ;; save_cache c ;; ret a).
Proof.
  intros A k v a w.
  unfold saved_or_failed, save_cache, cache_setitem, the_CACHE, bind, lift, ret.
  destruct (hashable k); [|left; apply untouched_refl].
  cbn [CACHE set_CACHE writable].
  destruct (json_dumps (VDict (dict_set k v (CACHE w)))) as [j|e] eqn:Hj.
  - destruct (writable w) eqn:Hw.
    + right. left. exists j. split; [exact Hj|reflexivity].
    + right. right. exists OSError. split; [reflexivity|].
      cbn [CACHE set_CACHE writable]. now rewrite Hj, Hw.
  - right. right. exists e. split; [reflexivity|].
    cbn [CACHE set_CACHE]. now rewrite Hj.
Qed.

Create HintDb saves.
#[local] Hint Resolve saves_ret saves_lift saves_print saves_requests_get
  saves_cache_contains saves_cache_getitem saves_store : saves.

Ltac saves :=
  repeat first
    [ apply saves_store
    | apply saves_bind; [|intros ?]
    | match goal with |- saves_its_writes (if ?b then _ else _) => destruct b end
    | solve [auto with saves] ].

Lemma get_site_instance_saves :
  forall site_url, saves_its_writes (get_site_instance site_url).
Proof. intros site_url. unfold get_site_instance. saves. Qed.

Lemma build_state_url_dict_saves : saves_its_writes build_state_url_dict.
Proof. unfold build_state_url_dict. saves. Qed.

Lemma get_nearby_places_saves :
  forall site_object, saves_its_writes (get_nearby_places site_object).
Proof. intros site_object. unfold get_nearby_places. saves. Qed.

Lemma visit_headers_saves :
  forall headers acc cached, saves_its_writes (visit_headers headers acc cached).
Proof.
  induction headers as [|header headers IH]; intros acc cached;
    cbn [visit_headers].
  - apply saves_ret.
  - apply saves_bind; [apply saves_lift|intros href].
    apply saves_bind; [apply get_site_instance_saves|intros instance].
    apply IH.
Qed.

Lemma get_sites_for_state_saves :
  forall state_url, saves_its_writes (get_sites_for_state state_url).
Proof.
  intros state_url. unfold get_sites_for_state.
  apply saves_bind; [apply saves_cache_contains|intros [|]].
  - saves.
  - apply saves_bind; [apply saves_print|intros _].
    apply saves_bind; [apply saves_requests_get|intros html].
    apply saves_bind; [apply saves_lift|intros headers].
    apply saves_bind; [apply visit_headers_saves|intros both].
    apply saves_store.
Qed.

(** C7: a save that goes through puts the whole of the dict it is given in
    the place of whatever the cache file held; and every fetcher, however
    it ends, leaves [CACHE] and the file untouched, or leaves the file
    holding the whole of [CACHE], or ends in the exception raised by the
    save of the write it had just made. *)
Theorem every_cache_write_is_saved :
  (forall (c : dict) (w : world) (j : json),
      json_dumps (VDict c) = Ok j ->
      writable w = true ->
      save_cache c w = (Ok tt, set_disk (Document j) w))
  /\ (forall w, saved_or_failed w (build_state_url_dict w))
  /\ (forall site_url w, saved_or_failed w (get_site_instance site_url w))
  /\ (forall state_url w, saved_or_failed w (get_sites_for_state state_url w))
  /\ (forall site_object w, saved_or_failed w (get_nearby_places site_object w)).
Proof.
  split; [apply save_cache_overwrites|].
  split; [apply build_state_url_dict_saves|].
  split; [apply get_site_instance_saves|].
  split; [apply get_sites_for_state_saves|apply get_nearby_places_saves].
Qed.

End Durability.

Lemma every_cache_write_is_saved_witness :
  save_cache [(VStr "49931", VList [])] fresh
  = (Ok tt,
     set_disk (Document (JObject [("49931", JArray [])])) fresh).
Proof.
  apply (proj1 (every_cache_write_is_saved (env := demo))); reflexivity.
Defined.

(** ** The shell *)

Section ShellProperties.

Context {env : Environment}.

(** C8: a line whose lower-case form is neither a key of the directory nor
    [exit] makes the state-selection loop show its prompt and print the
    invalid-state message; the shell stays at state-selection with the same
    directory, and [CACHE], the cache file and the request log are as they
    were. *)
Theorem unknown_state_reprompts :
  forall (states : value) (line : string) (lines : list string) (w : world),
    str_in (Py.lower line) states = Ok false ->
    Py.lower line <> "exit" ->
    let w' := emit ((invalid_state_message ++ Py.newline) ++ Py.newline)
                   (emit state_prompt w) in
    step (StateSelection states) line w = (StateSelection states, w') /\
    untouched w w' /\ requests w' = requests w /\
    run (line :: lines) (StateSelection states) w
      = run lines (StateSelection states) w'.
Proof.
  intros states line lines w Hin Hexit w'.
  assert (Hstep : step (StateSelection states) line w
                  = (StateSelection states, w')).
  { unfold step, state_selection, bind, show_prompt, lift, print, ret.
    rewrite Hin. cbn [settle].
    destruct (String.eqb (Py.lower line) "exit") eqn:E.
    - apply String.eqb_eq in E. contradiction.
    - reflexivity. }
  split; [exact Hstep|]. split; [now split|]. split; [reflexivity|].
  cbn [run]. now rewrite Hstep.
Qed.

Lemma list_sites_counts :
  forall (sites : list NationalSite) (count : Z) (w : world),
    fst (list_sites sites count w)
      = Ok (count + Z.of_nat (List.length sites)).
Proof.
  induction sites as [|site sites IH]; intros count w.
  - cbn. now rewrite Z.add_0_r.
  - cbn [list_sites]. unfold bind at 1, print. rewrite IH.
    f_equal. cbn [List.length]. lia.
Qed.

(** The count the site-selection loop tests against is always one more
    than the number of sites listed. *)
Lemma step_well_counted :
  forall (sh : shell) (line : string) (w : world),
    well_counted sh -> well_counted (fst (step sh line w)).
Proof.
  intros [states|states sites count|cause] line w Hc; cbn [step].
  - unfold state_selection, bind, show_prompt, lift, print, ret.
    destruct (str_in (Py.lower line) states) as [[|]|e]; cbn [settle fst];
      try exact I.
    + destruct (getitem_str states (Py.lower line)) as [url|e];
        cbn [settle fst]; try exact I.
      destruct (get_sites_for_state url _) as [[sites|e] w1];
        cbn [settle fst]; try exact I.
      pose proof (list_sites_counts sites 1
                    (emit (rule ++ Py.newline)
                       (emit (("List of national sites in " ++ Py.lower line)
                              ++ Py.newline)
                          (emit (rule ++ Py.newline) w1)))) as Hn.
      destruct (list_sites sites 1 _) as [[count|e] w2]; cbn [settle fst];
        try exact I.
      cbn [fst] in Hn. injection Hn as ->. reflexivity.
    + destruct (String.eqb (Py.lower line) "exit"); exact I.
  - unfold site_selection, bind, show_prompt, lift, print, ret, raise.
    destruct (Py.isnumeric (Py.lower line)).
    + destruct (Py.int (Py.lower line)) as [n|e]; cbn [settle fst];
        try exact I.
      destruct (in_range n 1 (count + 1)); [|exact Hc].
      destruct (list_getitem sites (n - 1)) as [site|e]; cbn [settle fst];
        try exact I.
      destruct (get_nearby_places site _) as [[places|e] w1];
        cbn [settle fst]; try exact I.
      destruct (getitem_str places "searchResults") as [results|e];
        cbn [settle fst]; try exact I.
      destruct (py_iter results) as [items|e]; cbn [settle fst]; try exact I.
      destruct (list_places items 1 _) as [[[]|e] w2]; cbn [settle fst];
        [exact Hc|exact I].
    + destruct (String.eqb (Py.lower line) "exit"); [exact I|].
      destruct (String.eqb (Py.lower line) "back"); [exact I|exact Hc].
  - exact I.
Qed.

Lemma run_well_counted :
  forall (lines : list string) (sh : shell) (w : world),
    well_counted sh -> well_counted (fst (run lines sh w)).
Proof.
  induction lines as [|line lines IH]; intros sh w Hc.
  - destruct sh as [states|states sites count|cause]; cbn [run end_of_input];
      exact I.
  - pose proof (step_well_counted sh line w Hc) as Hs.
    destruct sh as [states|states sites count|cause]; cbn [run];
      try exact I;
      destruct (step _ line w) as [sh' w']; apply IH; exact Hs.
Qed.


(** C2 fails one past the end: the number of sites plus one passes the
    range test, and the lookup in the list of sites raises [IndexError],
    which ends the process; no error message is printed. *)
Theorem index_one_past_the_end_raises :
  forall (states : value) (sites : list NationalSite) (line : string)
         (w : world),
    Py.isnumeric (Py.lower line) = true ->
    Py.int (Py.lower line) = Ok (Z.of_nat (List.length sites) + 1) ->
    step (SiteSelection states sites (1 + Z.of_nat (List.length sites))) line w
      = (Terminated (Some IndexError),
         emit site_prompt (emit ((Py.newline ++ rule) ++ Py.newline) w)).
Proof.
  intros states sites line w Hnum Hint.
  unfold step, site_selection, bind, show_prompt, lift, print, ret.
  rewrite Hnum, Hint.
  replace (in_range (Z.of_nat (List.length sites) + 1) 1
             (1 + Z.of_nat (List.length sites) + 1)) with true.
  - unfold list_getitem.
    replace (Z.of_nat (List.length sites) + 1 - 1 <? 0) with false
      by (symmetry; apply Z.ltb_ge; lia).
    replace (Z.of_nat (List.length sites) + 1 - 1
             <? Z.of_nat (List.length sites)) with false
      by (symmetry; apply Z.ltb_ge; lia).
    rewrite andb_false_r. reflexivity.
  - unfold in_range. symmetry. apply andb_true_iff.
    split; [apply Z.leb_le|apply Z.ltb_lt]; lia.
Qed.

(** A superscript two counts as numeric for [isnumeric] but is no digit
    for [int]: the line ends the process with [ValueError]. *)
Lemma superscript_two_raises :
  forall (states : value) (sites : list NationalSite) (count : Z) (w : world),
    fst (step (SiteSelection states sites count) (Py.str1 (Py.char 178)) w)
      = Terminated (Some ValueError).
Proof. reflexivity. Qed.

End ShellProperties.

Lemma unknown_state_reprompts_witness :
  step (env := demo) (StateSelection michigan_only) "Atlantis" fresh
  = (StateSelection michigan_only,
     emit ((invalid_state_message ++ Py.newline) ++ Py.newline)
       (emit state_prompt fresh)).
Proof.
  apply (unknown_state_reprompts (env := demo) michigan_only "Atlantis" [] fresh).
  - reflexivity.
  - discriminate.
Defined.

Lemma index_one_past_the_end_raises_witness :
  step (env := demo) (SiteSelection michigan_only [isle_royale] 2) "2" fresh
  = (Terminated (Some IndexError),
     emit site_prompt (emit ((Py.newline ++ rule) ++ Py.newline) fresh)).
Proof.
  apply (index_one_past_the_end_raises (env := demo) michigan_only
           [isle_royale] "2" fresh); reflexivity.
Defined.

(** The whole script, on a fresh cache: Michigan lists one site, and the
    answer 2 ends the process with [IndexError]. *)
Lemma main_michigan_2 :
  fst (main (env := demo) ["Michigan"; "2"] fresh) = Terminated (Some IndexError).
Proof. vm_compute. reflexivity. Qed.

(** * Further properties *)

(** ** Dictionaries, continued *)

Section MoreDicts.

Lemma dict_set_absent :
  forall k v d, dict_get k d = None -> dict_set k v d = (d ++ [(k, v)])%list.
Proof.
  induction d as [|[k' v'] d IH]; simpl; intros H; [reflexivity|].
  destruct (key_eqb k' k); [discriminate H|]. now rewrite IH.
Qed.

Lemma dict_set_app_absent :
  forall k v (d e : dict),
    dict_get k d = None ->
    dict_set k v (d ++ e)%list = (d ++ dict_set k v e)%list.
Proof.
  induction d as [|[k' v'] d IH]; simpl; intros e H; [reflexivity|].
  destruct (key_eqb k' k); [discriminate H|]. now rewrite IH.
Qed.

Lemma dict_get_app :
  forall k (d e : dict),
    dict_get k (d ++ e)%list
    = match dict_get k d with Some v => Some v | None => dict_get k e end.
Proof.
  induction d as [|[k' v'] d IH]; simpl; intros e; [reflexivity|].
  destruct (key_eqb k' k); auto.
Qed.

Lemma grows_refl : forall w, grows w w.
Proof. intros w. exists []. now rewrite app_nil_r. Qed.

Lemma grows_trans : forall w1 w2 w3, grows w1 w2 -> grows w2 w3 -> grows w1 w3.
Proof.
  intros w1 w2 w3 [a Ha] [b Hb]. exists (a ++ b)%list.
  now rewrite Hb, Ha, app_assoc.
Qed.

Lemma grows_same : forall w w', CACHE w' = CACHE w -> grows w w'.
Proof. intros w w' H. exists []. now rewrite app_nil_r. Qed.

Lemma stores_at_most_grows :
  forall k w w', stores_at_most k w w' -> grows w w'.
Proof.
  intros k w w' [H|[v [_ H]]]; [now apply grows_same|now exists [(k, v)]].
Qed.

Lemma grows_keeps :
  forall w w' k v,
    grows w w' -> dict_get k (CACHE w) = Some v -> dict_get k (CACHE w') = Some v.
Proof.
  intros w w' k v [added H] Hk. now rewrite H, dict_get_app, Hk.
Qed.

End MoreDicts.

(** ** What a fetch does to the cache *)

Section CacheGrowth.

Context {env : Environment}.

Ltac run_all :=
  unfold save_cache, cache_contains, cache_getitem, cache_setitem, print,
    the_CACHE, requests_get, show_prompt, bind, lift, ret, raise;
  cbn [CACHE disk writable stdout requests emit set_CACHE set_disk log_request
       fst snd];
  repeat (match goal with
          | |- context [match ?x with _ => _ end] =>
              lazymatch x with
              | context [match _ with _ => _ end] => fail
              | _ => destruct x eqn:?
              end
          end;
          cbn [CACHE disk writable stdout requests emit set_CACHE set_disk
               log_request fst snd]).

Ltac stored_or_not :=
  first [ left; reflexivity
        | right; eexists; split; [reflexivity|];
          apply dict_set_absent; assumption ].

Lemma get_site_instance_stores :
  forall site_url w,
    stores_at_most site_url w (snd (get_site_instance site_url w)).
Proof.
  intros site_url w. unfold get_site_instance, stores_at_most. run_all.
  all: stored_or_not.
Qed.

Lemma build_state_url_dict_stores :
  forall w, stores_at_most (VStr "states") w (snd (build_state_url_dict w)).
Proof.
  intros w. unfold build_state_url_dict, stores_at_most. run_all.
  all: stored_or_not.
Qed.

Lemma get_nearby_places_stores :
  forall site_object w,
    stores_at_most (zipcode site_object) w
      (snd (get_nearby_places site_object w)).
Proof.
  intros site_object w. unfold get_nearby_places, stores_at_most. run_all.
  all: stored_or_not.
Qed.

Lemma visit_headers_grows :
  forall headers acc cached w,
    grows w (snd (visit_headers headers acc cached w)).
Proof.
  induction headers as [|header headers IH]; intros acc cached w;
    cbn [visit_headers].
  - apply grows_same; reflexivity.
  - unfold bind at 1, lift. destruct header as [href|e]; [|apply grows_same; reflexivity].
    unfold bind at 1.
    pose proof (get_site_instance_stores
                  (VStr ("https://www.nps.gov" ++ href ++ "index.htm")) w) as Hs.
    apply stores_at_most_grows in Hs.
    destruct (get_site_instance _ w) as [[instance|e] w1]; cbn [snd] in *;
      [|exact Hs].
    eapply grows_trans; [exact Hs|apply IH].
Qed.

Lemma get_sites_for_state_grows :
  forall state_url w, grows w (snd (get_sites_for_state state_url w)).
Proof.
  intros state_url w. unfold get_sites_for_state.
  unfold bind at 1, cache_contains.
  destruct (hashable state_url); [|apply grows_same; reflexivity].
  destruct (dict_get state_url (CACHE w)) as [cached|] eqn:Hg.
  - run_all; apply grows_same; reflexivity.
  - unfold bind at 1, print. unfold bind at 1, requests_get.
    destruct (http_get _ _) as [html|e]; [|apply grows_same; reflexivity].
    unfold bind at 1, lift.
    destruct (scrape_headers html) as [headers|e]; [|apply grows_same; reflexivity].
    unfold bind at 1.
    pose proof (visit_headers_grows headers [] []
                  (log_request (Py.str state_url)
                     (emit ("Fetching" ++ Py.newline) w))) as [added Ha].
    destruct (visit_headers _ _ _ _) as [[both|e] w0]; cbn [snd] in Ha;
      [|exists added; exact Ha].
    cbn [CACHE log_request emit] in Ha.
    assert (Hset : CACHE (set_CACHE (dict_set state_url (VList (snd both))
                                        (CACHE w0)) w0)
                   = (CACHE w ++ dict_set state_url (VList (snd both)) added)%list).
    { cbn [CACHE set_CACHE]. rewrite Ha. now apply dict_set_app_absent. }
    run_all; first [eexists; exact Hset | exists added; exact Ha].
Qed.

(** X1: a fetch of the directory, of a site or of the places near a site
    leaves [CACHE] as it was or adds one entry at its end, under its own
    key ([states], the URL, the zip code) and only when [CACHE] had no such
    key; a fetch of the sites of a state only adds entries at the end.
    This holds however the fetch ends: no entry is ever changed or taken
    out. *)
Theorem fetch_never_overwrites :
  (forall w, stores_at_most (VStr "states") w (snd (build_state_url_dict w)))
  /\ (forall site_url w,
        stores_at_most site_url w (snd (get_site_instance site_url w)))
  /\ (forall site_object w,
        stores_at_most (zipcode site_object) w
          (snd (get_nearby_places site_object w)))
  /\ (forall state_url w, grows w (snd (get_sites_for_state state_url w))).
Proof.
  split; [apply build_state_url_dict_stores|].
  split; [apply get_site_instance_stores|].
  split; [apply get_nearby_places_stores|apply get_sites_for_state_grows].
Qed.

Lemma quiet_refl : forall w, quiet w w.
Proof. intros w. repeat split. Qed.

Lemma quiet_trans : forall w1 w2 w3, quiet w1 w2 -> quiet w2 w3 -> quiet w1 w3.
Proof.
  intros w1 w2 w3 (H1 & H2 & H3 & H4) (G1 & G2 & G3 & G4).
  repeat split; congruence.
Qed.

Lemma quiet_emit : forall s w, quiet w (emit s w).
Proof. intros s w. repeat split. Qed.

Lemma list_sites_quiet :
  forall sites count w, quiet w (snd (list_sites sites count w)).
Proof.
  induction sites as [|site sites IH]; intros count w; cbn [list_sites].
  - apply quiet_refl.
  - unfold bind at 1, print.
    eapply quiet_trans; [apply quiet_emit|apply IH].
Qed.

Lemma list_places_quiet :
  forall places count1 w, quiet w (snd (list_places places count1 w)).
Proof.
  induction places as [|place places IH]; intros count1 w; cbn [list_places].
  - apply quiet_refl.
  - unfold bind at 1, lift.
    destruct (getitem_str place "fields") as [fields|e]; [|apply quiet_refl].
    unfold bind at 1, lift.
    destruct (nearby_places_info fields) as [line|e]; [|apply quiet_refl].
    unfold bind at 1, print.
    eapply quiet_trans; [apply quiet_emit|apply IH].
Qed.

Lemma snd_settle : forall outcome, snd (settle outcome) = snd outcome.
Proof. intros [[sh|e] w]; reflexivity. Qed.

Lemma state_selection_grows :
  forall states line w, grows w (snd (state_selection states line w)).
Proof.
  intros states line w. unfold state_selection.
  unfold bind at 1, show_prompt. unfold bind at 1, lift.
  destruct (str_in (Py.lower line) states) as [[|]|e];
    [| |apply grows_same; reflexivity].
  - unfold bind at 1, lift.
    destruct (getitem_str states (Py.lower line)) as [url|e];
      [|apply grows_same; reflexivity].
    unfold bind at 1.
    pose proof (get_sites_for_state_grows url (emit state_prompt w)) as Hg.
    destruct (get_sites_for_state url _) as [[sites|e] w1]; cbn [snd] in Hg;
      [|exact Hg].
    unfold bind at 1, print. unfold bind at 1. unfold bind at 1.
    unfold bind at 1.
    match goal with
    | |- context [list_sites sites 1 ?w2] =>
        pose proof (list_sites_quiet sites 1 w2) as [Hq _];
        destruct (list_sites sites 1 w2) as [[count|e] w3]
    end; cbn [snd ret] in *;
      (eapply grows_trans; [exact Hg|apply grows_same; exact Hq]).
  - destruct (String.eqb (Py.lower line) "exit"); apply grows_same; reflexivity.
Qed.

Lemma site_selection_grows :
  forall states sites count line w,
    grows w (snd (site_selection states sites count line w)).
Proof.
  intros states sites count line w. unfold site_selection.
  unfold bind at 1, print. unfold bind at 1, show_prompt.
  destruct (Py.isnumeric (Py.lower line)).
  - unfold bind at 1, lift.
    destruct (Py.int (Py.lower line)) as [n|e];
      [|apply grows_same; reflexivity].
    destruct (in_range n 1 (count + 1)); [|apply grows_same; reflexivity].
    unfold bind at 1, lift.
    destruct (list_getitem sites (n - 1)) as [site|e];
      [|apply grows_same; reflexivity].
    unfold bind at 1.
    match goal with
    | |- context [get_nearby_places site ?w0] =>
        pose proof (stores_at_most_grows _ _ _
                      (get_nearby_places_stores site w0)) as Hg;
        destruct (get_nearby_places site w0) as [[places|e] w1]
    end; cbn [snd] in Hg; [|exact Hg].
    unfold bind at 1, print. unfold bind at 1. unfold bind at 1.
    unfold bind at 1, lift.
    destruct (getitem_str places "searchResults") as [results|e];
      [|exact Hg].
    unfold bind at 1, lift.
    destruct (py_iter results) as [items|e]; [|exact Hg].
    unfold bind at 1.
    match goal with
    | |- context [list_places items 1 ?w2] =>
        pose proof (list_places_quiet items 1 w2) as [Hq _];
        destruct (list_places items 1 w2) as [[[]|e] w3]
    end; cbn [snd ret] in *;
      (eapply grows_trans; [exact Hg|apply grows_same; exact Hq]).
  - destruct (String.eqb (Py.lower line) "exit");
      [apply grows_same; reflexivity|].
    destruct (String.eqb (Py.lower line) "back"); apply grows_same; reflexivity.
Qed.

Lemma step_grows : forall sh line w, grows w (snd (step sh line w)).
Proof.
  intros [states|states sites count|cause] line w; cbn [step].
  - rewrite snd_settle. apply state_selection_grows.
  - rewrite snd_settle. apply site_selection_grows.
  - apply grows_refl.
Qed.

Lemma run_grows : forall lines sh w, grows w (snd (run lines sh w)).
Proof.
  induction lines as [|line lines IH]; intros sh w.
  - destruct sh; cbn; apply grows_same; reflexivity.
  - pose proof (step_grows sh line w) as Hs.
    destruct sh as [states|states sites count|cause]; cbn [run];
      try apply grows_refl;
      destruct (step _ line w) as [sh' w']; cbn [snd] in Hs;
      (eapply grows_trans; [exact Hs|apply IH]).
Qed.

(** X2: an entry that [CACHE] holds when the script starts is there, with
    the same value, when the script ends, whatever was typed and however
    the script ended. *)
Theorem cached_entries_survive_the_session :
  forall (lines : list string) (w : world) (k v : value),
    dict_get k (CACHE w) = Some v ->
    dict_get k (CACHE (snd (main lines w))) = Some v.
Proof.
  intros lines w k v Hk. apply (grows_keeps w); [|exact Hk].
  unfold main.
  pose proof (stores_at_most_grows _ _ _ (build_state_url_dict_stores w)) as Hb.
  destruct (build_state_url_dict w) as [[states|e] w1]; cbn [snd] in *;
    [|exact Hb].
  eapply grows_trans; [exact Hb|apply run_grows].
Qed.

End CacheGrowth.

Lemma cached_entries_survive_the_session_witness :
  dict_get isle_royale_url
    (CACHE (snd (main (env := demo) ["Michigan"; "1"; "exit"] phoneless)))
  = dict_get isle_royale_url (CACHE phoneless).
Proof.
  symmetry.
  apply (cached_entries_survive_the_session (env := demo)
           ["Michigan"; "1"; "exit"] phoneless isle_royale_url).
  reflexivity.
Defined.

(** ** The cache in memory and the cache file stay in step *)

Section JsonInduction.

Variable P : json -> Prop.
Hypothesis HNull : P JNull.
Hypothesis HBool : forall b, P (JBool b).
Hypothesis HNumber : forall z, P (JNumber z).
Hypothesis HString : forall s, P (JString s).
Hypothesis HArray : forall l, Forall P l -> P (JArray l).
Hypothesis HObject : forall m, Forall (fun kv => P (snd kv)) m -> P (JObject m).

Fixpoint json_nested_ind (j : json) : P j :=
  match j with
  | JNull => HNull
  | JBool b => HBool b
  | JNumber z => HNumber z
  | JString s => HString s
  | JArray l =>
      HArray l ((fix go (l : list json) : Forall P l :=
                   match l with
                   | [] => Forall_nil P
                   | x :: l' => Forall_cons x (json_nested_ind x) (go l')
                   end) l)
  | JObject m =>
      HObject m ((fix go (m : list (string * json))
                    : Forall (fun kv => P (snd kv)) m :=
                    match m with
                    | [] => Forall_nil _
                    | kv :: m' =>
                        Forall_cons kv (json_nested_ind (snd kv)) (go m')
                    end) m)
  end.

End JsonInduction.

Section InStep.

Lemma dict_get_none_keys :
  forall k d,
    dict_get k d = None -> existsb (fun k' => key_eqb k' k) (map fst d) = false.
Proof.
  induction d as [|[k' v'] d IH]; simpl; intros H; [reflexivity|].
  destruct (key_eqb k' k); [discriminate H|]. now apply IH.
Qed.

Lemma distinct_snoc :
  forall (l : list value) (k : value),
    distinct l = true ->
    existsb (fun k' => key_eqb k' k) l = false ->
    distinct (l ++ [k]) = true.
Proof.
  induction l as [|a l IH]; simpl; intros k Hd Hk; [reflexivity|].
  apply andb_true_iff in Hd as [Ha Hd].
  apply orb_false_iff in Hk as [Hak Hk].
  apply andb_true_iff. split; [|now apply IH].
  apply negb_true_iff. rewrite existsb_app. simpl.
  apply negb_true_iff in Ha. now rewrite Ha, Hak.
Qed.

Lemma dict_set_present_keys :
  forall k v v0 d,
    dict_get k d = Some v0 -> map fst (dict_set k v d) = map fst d.
Proof.
  induction d as [|[k' v'] d IH]; simpl; intros H; [discriminate H|].
  destruct (key_eqb k' k); simpl; [reflexivity|]. now rewrite IH.
Qed.

Lemma dict_set_entries :
  forall (Q : value * value -> bool) k v d,
    Q (k, v) = true ->
    (forall k', key_eqb k' k = true -> Q (k', v) = true) ->
    forallb Q d = true -> forallb Q (dict_set k v d) = true.
Proof.
  intros Q k v d Hkv Hsame. induction d as [|[k' v'] d IH]; simpl; intros H.
  - now rewrite Hkv.
  - apply andb_true_iff in H as [H1 H2].
    destruct (key_eqb k' k) eqn:E; simpl.
    + now rewrite (Hsame k' E), H2.
    + now rewrite H1, IH.
Qed.

Lemma plain_dict_set :
  forall k v d,
    is_str k = true -> plain v = true -> plain (VDict d) = true ->
    plain (VDict (dict_set k v d)) = true.
Proof.
  intros k v d Hk Hv Hd. cbn [plain] in *.
  apply andb_true_iff in Hd as [Hdist Hall].
  apply andb_true_iff. split.
  - destruct (dict_get k d) as [v0|] eqn:Hg.
    + now rewrite (dict_set_present_keys k v v0).
    + rewrite dict_set_absent, map_app by assumption. cbn [map fst].
      apply distinct_snoc; [assumption|now apply dict_get_none_keys].
  - apply dict_set_entries; [cbn [fst snd]; now rewrite Hk, Hv| |assumption].
    intros k' Hk'. cbn [fst snd]. rewrite Hv.
    destruct k as [| | |s| |]; try discriminate Hk.
    destruct k' as [| | |s'| |]; try discriminate Hk'. reflexivity.
Qed.

Lemma plain_dict_get :
  forall k v d,
    plain (VDict d) = true -> dict_get k d = Some v -> plain v = true.
Proof.
  intros k v d Hd Hg. cbn [plain] in Hd.
  apply andb_true_iff in Hd as [_ Hall].
  induction d as [|[k' v'] d IH]; simpl in *; [discriminate Hg|].
  apply andb_true_iff in Hall as [H1 H2].
  destruct (key_eqb k' k).
  - injection Hg as <-. now apply andb_true_iff in H1 as [_ H1].
  - now apply IH.
Qed.

Lemma json_loads_plain : forall j, plain (json_loads j) = true.
Proof.
  induction j as [| b | z | s | l IH | m IH] using json_nested_ind;
    try reflexivity.
  - cbn [json_loads plain]. induction IH as [|x l Hx _ IHl]; cbn; auto.
    now rewrite Hx, IHl.
  - cbn [json_loads].
    assert (H : forall acc, plain (VDict acc) = true ->
              plain (VDict (fold_left
                (fun d kv => dict_set (VStr (fst kv)) (json_loads (snd kv)) d)
                m acc)) = true).
    { induction IH as [|kv m Hkv _ IHm]; intros acc Hacc; cbn [fold_left];
        [exact Hacc|].
      apply IHm. now apply plain_dict_set. }
    now apply H.
Qed.

Lemma loaded_plain : forall w, loaded w -> plain (VDict (CACHE w)) = true.
Proof.
  intros w H. unfold loaded, open_cache, try_except, read_cache_file, ret in H.
  destruct (disk w) as [| | |j]; injection H as H; try (now rewrite <- H).
  rewrite <- H. apply json_loads_plain.
Qed.

Lemma on_disk_loaded :
  forall w, on_disk w -> plain (VDict (CACHE w)) = true -> loaded w.
Proof.
  intros w [j [Hj Hd]] Hp.
  destruct (json_round_trip _ Hp) as [j' [Hj' Hl]].
  assert (j' = j) by congruence. subst j'.
  unfold loaded, open_cache, try_except, read_cache_file.
  now rewrite Hd, Hl.
Qed.

Lemma loaded_emit : forall s w, loaded w -> loaded (emit s w).
Proof.
  intros s w H. unfold loaded, open_cache, try_except, read_cache_file, ret in *.
  cbn [disk emit CACHE].
  destruct (disk w); injection H as H; now rewrite H.
Qed.

Lemma loaded_log_request :
  forall url w, loaded w -> loaded (log_request url w).
Proof.
  intros url w H.
  unfold loaded, open_cache, try_except, read_cache_file, ret in *.
  cbn [disk log_request CACHE].
  destruct (disk w); injection H as H; now rewrite H.
Qed.

Lemma stored_loaded :
  forall k v j w,
    is_str k = true -> plain v = true -> plain (VDict (CACHE w)) = true ->
    json_dumps (VDict (dict_set k v (CACHE w))) = Ok j ->
    loaded (stored k v j w).
Proof.
  intros k v j w Hk Hv Hp Hj. apply on_disk_loaded.
  - exists j. split; [exact Hj|reflexivity].
  - cbn [stored CACHE set_disk set_CACHE]. now apply plain_dict_set.
Qed.

End InStep.

Section FetchInStep.

Context {env : Environment}.

Ltac unfold_ops :=
  unfold save_cache, cache_contains, cache_getitem, cache_setitem, print,
    the_CACHE, requests_get, show_prompt, bind, lift, ret, raise in *;
  cbn [CACHE disk writable stdout requests emit set_CACHE set_disk log_request
       fst snd] in *.

Ltac split_run H :=
  match type of H with
  | context [match ?x with _ => _ end] =>
      lazymatch x with
      | context [match _ with _ => _ end] => fail
      | _ => destruct x eqn:?
      end
  end;
  cbn [CACHE disk writable stdout requests emit set_CACHE set_disk log_request
       fst snd rbind] in *;
  try discriminate H.

Lemma build_state_url_dict_miss_ok :
  forall (w w1 : world) (states : value),
    dict_get (VStr "states") (CACHE w) = None ->
    build_state_url_dict w = (Ok states, w1) ->
    exists html list_items,
      http_get (requests w) "https://www.nps.gov/index.htm" = Ok html /\
      scrape_states html = Ok list_items /\
      states = VDict (directory_of list_items).
Proof.
  intros w w1 states Hmiss H.
  unfold build_state_url_dict in H. unfold_ops. cbn [hashable] in H.
  rewrite Hmiss in H. repeat split_run H.
  injection H as <- <-. eauto.
Qed.

Lemma get_sites_for_state_miss_ok :
  forall (state_url : value) (w w1 : world) (sites : list NationalSite),
    dict_get state_url (CACHE w) = None ->
    get_sites_for_state state_url w = (Ok sites, w1) ->
    exists html headers w0 j,
      http_get (requests w) (Py.str state_url) = Ok html /\
      scrape_headers html = Ok headers /\
      visit_headers headers [] []
        (log_request (Py.str state_url) (emit fetching w))
        = (Ok (sites, map attributes sites), w0) /\
      json_dumps
        (VDict (dict_set state_url (VList (map attributes sites)) (CACHE w0)))
        = Ok j /\
      w1 = stored state_url (VList (map attributes sites)) j w0.
Proof.
  intros state_url w w1 sites Hmiss H.
  unfold get_sites_for_state in H. unfold_ops.
  rewrite Hmiss in H. repeat split_run H.
  match goal with
  | Hv : visit_headers _ _ _ _ = (Ok ?both, _) |- _ =>
      destruct both as [sites0 cached];
      pose proof (visit_headers_ok _ [] _ _ _ _ Hv); subst cached
  end.
  cbn [fst snd] in *. injection H as <- <-.
  do 4 eexists. repeat split; eauto.
Qed.

Lemma directory_of_plain :
  forall list_items, plain (VDict (directory_of list_items)) = true.
Proof.
  intros list_items. unfold directory_of.
  assert (H : forall acc, plain (VDict acc) = true ->
            plain (VDict (fold_left
              (fun d item =>
                 dict_set (VStr (Py.lower (Py.strip (fst item))))
                          (VStr ("https://www.nps.gov" ++ snd item)) d)
              list_items acc)) = true).
  { induction list_items as [|item items IH]; intros acc Hacc; cbn [fold_left];
      [exact Hacc|].
    apply IH. now apply plain_dict_set. }
  now apply H.
Qed.

Lemma json_to_NationalSite_plain :
  forall v site,
    plain v = true -> json_to_NationalSite v = Ok site ->
    plain (attributes site) = true.
Proof.
  intros v site Hp H. unfold json_to_NationalSite, getitem_str in H.
  destruct v as [| | | | |d]; try discriminate H.
  destruct (dict_get (VStr "category") d) as [c|] eqn:Hc; [|discriminate H].
  destruct (dict_get (VStr "name") d) as [n|] eqn:Hn; [|discriminate H].
  destruct (dict_get (VStr "address") d) as [a|] eqn:Ha; [|discriminate H].
  destruct (dict_get (VStr "zipcode") d) as [z|] eqn:Hz; [|discriminate H].
  destruct (dict_get (VStr "phone") d) as [ph|] eqn:Hph; [|discriminate H].
  cbn [rbind] in H. injection H as <-.
  cbn. rewrite (plain_dict_get _ _ _ Hp Hc), (plain_dict_get _ _ _ Hp Hn),
    (plain_dict_get _ _ _ Hp Ha), (plain_dict_get _ _ _ Hp Hz),
    (plain_dict_get _ _ _ Hp Hph). reflexivity.
Qed.

Lemma get_site_instance_in_step :
  forall (site_url : value) (w w1 : world) (site : NationalSite),
    is_str site_url = true -> loaded w ->
    get_site_instance site_url w = (Ok site, w1) ->
    loaded w1 /\ plain (attributes site) = true.
Proof.
  intros site_url w w1 site Hk Hl H.
  pose proof (loaded_plain w Hl) as Hp.
  apply get_site_instance_ok in H as [_ [[cached [Hg [Hs ->]]]|[_ Hm]]].
  - split; [now apply loaded_emit|].
    eapply json_to_NationalSite_plain; [|exact Hs].
    eapply plain_dict_get; eauto.
  - destruct Hm as (html & soup & j & _ & _ & -> & Hj & _ & ->).
    split; [|reflexivity].
    apply stored_loaded; auto.
Qed.

Lemma visit_headers_in_step :
  forall (headers : list (result string)) (acc : list NationalSite)
         (cached : list value) (w w1 : world) both,
    loaded w -> forallb plain cached = true ->
    visit_headers headers acc cached w = (Ok both, w1) ->
    loaded w1 /\ forallb plain (snd both) = true.
Proof.
  induction headers as [|header headers IH]; intros acc cached w w1 both Hl Hc H.
  - cbn in H. injection H as <- <-. auto.
  - cbn [visit_headers] in H. unfold bind at 1, lift in H.
    destruct header as [href|e]; [|discriminate H].
    unfold bind at 1 in H.
    destruct (get_site_instance _ w) as [[instance|e] w0] eqn:Hi;
      [|discriminate H].
    apply get_site_instance_in_step in Hi as [Hl0 Hpi]; auto.
    apply (IH _ _ _ _ _ Hl0) in H; auto.
    rewrite forallb_app, Hc. cbn [forallb andb]. now rewrite Hpi.
Qed.

(** X4: when [CACHE] is what [open_cache] gives, as it is when the script
    starts, it still is after every fetch that returns: a new start of the
    script would load exactly the [CACHE] the fetch left.  The key is a
    string (a URL, a zip code), and the decoded API response is a JSON
    value. *)
Theorem fetch_keeps_cache_and_file_in_step :
  (forall w w1 states,
      loaded w -> build_state_url_dict w = (Ok states, w1) -> loaded w1)
  /\ (forall site_url w w1 site,
        loaded w -> get_site_instance (VStr site_url) w = (Ok site, w1) ->
        loaded w1)
  /\ (forall state_url w w1 sites,
        loaded w -> get_sites_for_state (VStr state_url) w = (Ok sites, w1) ->
        loaded w1)
  /\ (forall site_object w w1 results,
        plain_responses -> is_str (zipcode site_object) = true ->
        loaded w -> get_nearby_places site_object w = (Ok results, w1) ->
        loaded w1).
Proof.
  repeat split.
  - intros w w1 states Hl H. pose proof (loaded_plain w Hl) as Hp.
    destruct (build_state_url_dict_ok _ _ _ H) as [[_ ->]|[Hmiss [j [Hj ->]]]].
    + now apply loaded_emit.
    + destruct (build_state_url_dict_miss_ok _ _ _ Hmiss H)
        as (html & items & _ & _ & ->).
      apply stored_loaded; auto. apply directory_of_plain.
  - intros site_url w w1 site Hl H.
    now apply get_site_instance_in_step in H as [H _].
  - intros state_url w w1 sites Hl H.
    destruct (get_sites_for_state_ok _ _ _ _ H) as [_ [Hhit|[Hmiss _]]].
    + destruct Hhit as (cached & items & _ & _ & _ & ->).
      now apply loaded_emit.
    + destruct (get_sites_for_state_miss_ok _ _ _ _ Hmiss H)
        as (html & headers & w0 & j & _ & _ & Hv & Hj & ->).
      apply visit_headers_in_step in Hv as [Hl0 Hc];
        [|now apply loaded_log_request, loaded_emit|reflexivity].
      apply stored_loaded; auto. now apply loaded_plain.
  - intros site_object w w1 results Henv Hk Hl H.
    pose proof (loaded_plain w Hl) as Hp.
    destruct (get_nearby_places_ok _ _ _ _ H) as [_ [[_ ->]|[_ Hm]]].
    + now apply loaded_emit.
    + destruct Hm as (response & j & _ & Hr & Hj & ->).
      apply stored_loaded; eauto.
Qed.

End FetchInStep.

Lemma fetch_keeps_cache_and_file_in_step_witness :
  loaded (snd (get_nearby_places (env := demo) isle_royale fresh)).
Proof.
  apply (proj2 (proj2 (proj2 (fetch_keeps_cache_and_file_in_step (env := demo))))
           isle_royale fresh _ cafe_places).
  - intros response v H. injection H as <-. reflexivity.
  - reflexivity.
  - reflexivity.
  - vm_compute. reflexivity.
Defined.

(** ** How a session goes *)

Section Sessions.

Context {env : Environment}.

Lemma step_normal_end :
  forall sh line w,
    fst (step sh line w) = Terminated None ->
    sh = Terminated None \/ Py.lower line = "exit".
Proof.
  intros [states|states sites count|cause] line w H; cbn [step] in H.
  - right. unfold state_selection, bind, show_prompt, lift, print, ret in H.
    destruct (str_in (Py.lower line) states) as [[|]|e]; cbn [settle fst] in H;
      try discriminate H.
    + destruct (getitem_str states (Py.lower line)) as [url|e];
        cbn [settle fst] in H; try discriminate H.
      destruct (get_sites_for_state url _) as [[sites|e] w1];
        cbn [settle fst] in H; try discriminate H.
      destruct (list_sites sites 1 _) as [[count|e] w2]; cbn [settle fst] in H;
        discriminate H.
    + destruct (String.eqb (Py.lower line) "exit") eqn:E;
        [now apply String.eqb_eq|discriminate H].
  - exfalso.
    unfold site_selection, bind, show_prompt, lift, print, ret, raise in H.
    destruct (Py.isnumeric (Py.lower line)).
    + destruct (Py.int (Py.lower line)) as [n|e]; cbn [settle fst] in H;
        try discriminate H.
      destruct (in_range n 1 (count + 1)); [|discriminate H].
      destruct (list_getitem sites (n - 1)) as [site|e]; cbn [settle fst] in H;
        try discriminate H.
      destruct (get_nearby_places site _) as [[places|e] w1];
        cbn [settle fst] in H; try discriminate H.
      destruct (getitem_str places "searchResults") as [results|e];
        cbn [settle fst] in H; try discriminate H.
      destruct (py_iter results) as [items|e]; cbn [settle fst] in H;
        try discriminate H.
      destruct (list_places items 1 _) as [[[]|e] w2]; cbn [settle fst] in H;
        discriminate H.
    + destruct (String.eqb (Py.lower line) "exit"); [discriminate H|].
      destruct (String.eqb (Py.lower line) "back"); discriminate H.
  - left. exact H.
Qed.

Lemma run_normal_end :
  forall lines sh w,
    fst (run lines sh w) = Terminated None ->
    sh = Terminated None \/
    exists line, In line lines /\ Py.lower line = "exit".
Proof.
  induction lines as [|line lines IH]; intros sh w H.
  - destruct sh as [states|states sites count|cause]; cbn in H;
      try discriminate H. now left.
  - destruct sh as [states|states sites count|cause]; cbn [run] in H;
      try (now left);
      right;
      match type of H with
      | context [step ?sh0 line w] =>
          pose proof (step_normal_end sh0 line w) as Hs;
          destruct (step sh0 line w) as [sh' w']; cbn [fst] in Hs;
          apply IH in H as [->|[l [Hin Hl]]];
          [ destruct (Hs eq_refl) as [Hs'|Hs'];
            [discriminate Hs'|exists line; split; [now left|exact Hs']]
          | exists l; split; [now right|exact Hl] ]
      end.
Qed.

Lemma run_terminates :
  forall lines sh w, exists cause, fst (run lines sh w) = Terminated cause.
Proof.
  induction lines as [|line lines IH]; intros sh w.
  - destruct sh as [states|states sites count|cause]; cbn; eauto.
  - destruct sh as [states|states sites count|cause]; cbn [run];
      [| |cbn [fst]; eauto];
      destruct (step _ line w) as [sh' w']; apply IH.
Qed.

(** X5: the script always comes to an end, and it ends without an
    exception only when one of the lines typed is [exit], in any letter
    case; with no line to read it ends with [EOFError] at its first
    prompt. *)
Theorem session_ends_and_only_exit_ends_it_well :
  forall (lines : list string) (w : world),
    (exists cause, fst (main lines w) = Terminated cause) /\
    (fst (main lines w) = Terminated None ->
     exists line, In line lines /\ Py.lower line = "exit") /\
    (forall states,
        fst (build_state_url_dict w) = Ok states ->
        fst (main [] w) = Terminated (Some EOFError)).
Proof.
  intros lines w. unfold main.
  destruct (build_state_url_dict w) as [[states|e] w1]; cbn [fst].
  - split; [apply run_terminates|]. split.
    + intros H. apply run_normal_end in H as [H|H]; [discriminate H|exact H].
    + intros states' _. reflexivity.
  - split; [eauto|]. split; [intros H; discriminate H|].
    intros states H. discriminate H.
Qed.

(** X6: a line that picks nothing (no key of the directory at
    state-selection; at site-selection no number, or a number the range
    test turns away) changes nothing but the console: [CACHE], the cache
    file and the request log are as they were, whether the line was
    [exit], [back], an error or made the shell raise. *)
Theorem idle_lines_only_print :
  forall (sh : shell) (line : string) (w : world),
    ~ selects sh line -> quiet w (snd (step sh line w)).
Proof.
  intros [states|states sites count|cause] line w Hn; cbn [step selects] in *.
  - rewrite snd_settle.
    unfold state_selection, bind, show_prompt, lift, print, ret.
    destruct (str_in (Py.lower line) states) as [[|]|e];
      [now contradiction Hn| |apply quiet_emit].
    destruct (String.eqb (Py.lower line) "exit"); [apply quiet_emit|].
    eapply quiet_trans; apply quiet_emit.
  - rewrite snd_settle.
    unfold site_selection, bind, show_prompt, lift, print, ret, raise.
    destruct (Py.isnumeric (Py.lower line)).
    + destruct (Py.int (Py.lower line)) as [n|e];
        [|eapply quiet_trans; apply quiet_emit].
      destruct (in_range n 1 (count + 1)) eqn:E.
      * contradiction Hn. split; [reflexivity|]. exists n. now split.
      * eapply quiet_trans; [|apply quiet_emit].
        eapply quiet_trans; apply quiet_emit.
    + destruct (String.eqb (Py.lower line) "exit");
        [eapply quiet_trans; apply quiet_emit|].
      destruct (String.eqb (Py.lower line) "back");
        [eapply quiet_trans; apply quiet_emit|].
      eapply quiet_trans; [|apply quiet_emit].
      eapply quiet_trans; apply quiet_emit.
  - apply quiet_refl.
Qed.

End Sessions.

Lemma session_ends_and_only_exit_ends_it_well_witness :
  fst (main (env := demo) ["Michigan"; "back"; "EXIT"] fresh) = Terminated None
  /\ exists line,
       In line ["Michigan"; "back"; "EXIT"] /\ Py.lower line = "exit".
Proof.
  split; [vm_compute; reflexivity|].
  apply (proj1 (proj2 (session_ends_and_only_exit_ends_it_well (env := demo)
                         ["Michigan"; "back"; "EXIT"] fresh))).
  vm_compute. reflexivity.
Defined.

Lemma idle_lines_only_print_witness :
  quiet fresh
    (snd (step (env := demo) (SiteSelection michigan_only [isle_royale] 2)
            "7" fresh)).
Proof.
  apply (idle_lines_only_print (env := demo)).
  intros [_ [n [Hn Hr]]]. injection Hn as <-. discriminate Hr.
Defined.

(** ** What goes to the network *)

Section Requests.

Context {env : Environment}.

Ltac run_all :=
  unfold save_cache, cache_contains, cache_getitem, cache_setitem, print,
    the_CACHE, requests_get, show_prompt, bind, lift, ret, raise;
  cbn [CACHE disk writable stdout requests emit set_CACHE set_disk log_request
       fst snd andb];
  repeat (match goal with
          | |- context [match ?x with _ => _ end] =>
              lazymatch x with
              | context [match _ with _ => _ end] => fail
              | _ => destruct x eqn:?
              end
          end;
          cbn [CACHE disk writable stdout requests emit set_CACHE set_disk
               log_request fst snd andb]).

Lemma get_site_instance_requests :
  forall site_url w,
    requests (snd (get_site_instance site_url w))
    = if absent site_url w
      then (requests w ++ [Py.str site_url])%list else requests w.
Proof.
  intros site_url w. unfold get_site_instance, absent. run_all; reflexivity.
Qed.

Lemma prefix_append : forall s t : string, prefix s (s ++ t) = true.
Proof.
  induction s as [|a s IH]; intros t; cbn [prefix append];
    [now destruct t|].
  destruct (ascii_dec a a) as [_|Hn]; [apply IH|now contradiction Hn].
Qed.

Lemma nps_prefix :
  forall rest, prefix "https://www.nps.gov" ("https://www.nps.gov" ++ rest) = true.
Proof. intros rest. apply prefix_append. Qed.

Lemma visit_headers_requests :
  forall headers acc cached w,
    exists more,
      requests (snd (visit_headers headers acc cached w))
        = (requests w ++ more)%list /\
      Forall (fun url => prefix "https://www.nps.gov" url = true) more /\
      (List.length more <= List.length headers)%nat.
Proof.
  induction headers as [|header headers IH]; intros acc cached w;
    cbn [visit_headers].
  - exists []. split; [now rewrite app_nil_r|]. split; [constructor|reflexivity].
  - unfold bind at 1, lift.
    destruct header as [href|e].
    2: { exists []. split; [now rewrite app_nil_r|].
         split; [constructor|cbn [List.length]; lia]. }
    unfold bind at 1.
    pose proof (get_site_instance_requests
                  (VStr ("https://www.nps.gov" ++ href ++ "index.htm")) w) as Hr.
    destruct (get_site_instance _ w) as [[instance|e] w1]; cbn [snd] in Hr.
    + destruct (IH (acc ++ [instance])%list
                   (cached ++ [attributes instance])%list w1)
        as (more & Hm & Hall & Hlen).
      rewrite Hm, Hr.
      destruct (absent _ w).
      * exists (("https://www.nps.gov" ++ href ++ "index.htm") :: more).
        split; [now rewrite <- app_assoc|].
        split; [constructor; [apply nps_prefix|assumption]|].
        cbn [List.length]. lia.
      * exists more. split; [reflexivity|]. split; [assumption|].
        cbn [List.length]. lia.
    + cbn [snd]. rewrite Hr. destruct (absent _ w).
      * exists ["https://www.nps.gov" ++ href ++ "index.htm"].
        split; [reflexivity|].
        split; [constructor; [apply nps_prefix|constructor]|].
        cbn [List.length]. lia.
      * exists []. split; [now rewrite app_nil_r|].
        split; [constructor|cbn [List.length]; lia].
Qed.

(** X7: a fetch of the directory, of a site or of the places near a site
    sends exactly one request, to its own URL, when its key is hashable and
    not in [CACHE], and none otherwise, however the fetch ends.  A fetch of
    the sites of a state sends nothing when the state URL is in [CACHE];
    otherwise it asks for the state page and then at most once per header
    of that page, each time from www.nps.gov. *)
Theorem requests_sent_by_a_fetch :
  (forall w,
      requests (snd (build_state_url_dict w))
      = if absent (VStr "states") w
        then (requests w ++ ["https://www.nps.gov/index.htm"])%list
        else requests w)
  /\ (forall site_url w,
        requests (snd (get_site_instance site_url w))
        = if absent site_url w
          then (requests w ++ [Py.str site_url])%list else requests w)
  /\ (forall site_object w,
        requests (snd (get_nearby_places site_object w))
        = if absent (zipcode site_object) w
          then (requests w
                ++ [(BASE_URL ++ Py.str (zipcode site_object))%string])%list
          else requests w)
  /\ (forall state_url w,
        if absent state_url w
        then exists more,
            requests (snd (get_sites_for_state state_url w))
              = (requests w ++ Py.str state_url :: more)%list /\
            Forall (fun url => prefix "https://www.nps.gov" url = true) more /\
            (forall html headers,
                http_get (requests w) (Py.str state_url) = Ok html ->
                scrape_headers html = Ok headers ->
                (List.length more <= List.length headers)%nat)
        else requests (snd (get_sites_for_state state_url w)) = requests w).
Proof.
  split; [|split; [|split]].
  - intros w. unfold build_state_url_dict, absent. run_all; reflexivity.
  - apply get_site_instance_requests.
  - intros site_object w. unfold get_nearby_places, absent. run_all; reflexivity.
  - intros state_url w. unfold absent, get_sites_for_state.
    unfold bind at 1, cache_contains.
    destruct (hashable state_url); cbn [andb]; [|reflexivity].
    destruct (dict_get state_url (CACHE w)) as [cached|] eqn:Hg.
    + run_all; first [reflexivity|discriminate].
    + unfold bind at 1, print. unfold bind at 1, requests_get.
      cbn [requests emit].
      destruct (http_get _ _) as [html|e] eqn:Hhtml.
      2: { exists []. split; [reflexivity|]. split; [constructor|].
           intros html headers Hh. discriminate Hh. }
      unfold bind at 1, lift.
      destruct (scrape_headers html) as [headers|e] eqn:Hheaders.
      2: { exists []. split; [reflexivity|]. split; [constructor|].
           intros html' headers' Hh Hs. injection Hh as <-.
           rewrite Hheaders in Hs. discriminate Hs. }
      unfold bind at 1.
      destruct (visit_headers_requests headers [] []
                  (log_request (Py.str state_url)
                     (emit ("Fetching" ++ Py.newline) w)))
        as (more & Hm & Hall & Hlen).
      exists more.
      assert (Hreq : requests
                (snd ((let (r, w') :=
                         visit_headers headers [] []
                           (log_request (Py.str state_url)
                              (emit ("Fetching" ++ Py.newline) w)) in
                       match r with
                       | Ok a =>
                           (cache_setitem state_url (VList (snd a));;
                            c <- the_CACHE;; save_cache c;; ret (fst a)) w'
                       | Raise e => (Raise e, w')
                       end)))
              = requests (snd (visit_headers headers [] []
                           (log_request (Py.str state_url)
                              (emit ("Fetching" ++ Py.newline) w))))).
      { destruct (visit_headers _ _ _ _) as [[both|e] w0]; [|reflexivity].
        run_all; reflexivity. }
      rewrite Hreq, Hm. cbn [requests log_request emit].
      rewrite <- app_assoc. split; [reflexivity|]. split; [assumption|].
      intros html' headers' Hh Hs. injection Hh as <-.
      assert (headers' = headers) by congruence. now subst.
Qed.

End Requests.

(** ** Errors of the formatter and of the cached lists *)

Section Errors.

Context {env : Environment}.

(** X8: [nearby_places_info] returns a description only for a dict that
    holds all four keys: for a dict that lacks one it raises the [KeyError]
    of a key that is missing, and for anything that is no dict it raises
    [TypeError]. *)
Theorem nearby_places_info_errors :
  (forall (d : dict) (k : string),
      In k place_keys -> dict_get (VStr k) d = None ->
      exists k', In k' place_keys /\ dict_get (VStr k') d = None /\
                 nearby_places_info (VDict d) = Raise (KeyError (VStr k')))
  /\ (forall v, is_dict v = false -> nearby_places_info v = Raise TypeError)
  /\ (forall v description,
        nearby_places_info v = Ok description ->
        exists d, v = VDict d /\
                  forall k, In k place_keys -> dict_get (VStr k) d <> None).
Proof.
  split; [|split].
  - intros d k Hin Hk.
    unfold nearby_places_info, getitem_str, place_keys in *.
    destruct (dict_get (VStr "name") d) eqn:Hn;
      [|exists "name"; simpl; auto].
    destruct (dict_get (VStr "group_sic_code_name_ext") d) eqn:Hc;
      [|exists "group_sic_code_name_ext"; simpl; auto].
    destruct (dict_get (VStr "address") d) eqn:Ha;
      [|exists "address"; simpl; auto].
    destruct (dict_get (VStr "city") d) eqn:Hci;
      [|exists "city"; simpl; auto 6].
    simpl in Hin. destruct Hin as [<-|[<-|[<-|[<-|[]]]]]; congruence.
  - intros [| | | | |d] H; try reflexivity. discriminate H.
  - intros v description H.
    destruct v as [| | | | |d]; try discriminate H.
    exists d. split; [reflexivity|].
    unfold nearby_places_info, getitem_str, place_keys in *.
    destruct (dict_get (VStr "name") d) eqn:Hn; [|discriminate H].
    destruct (dict_get (VStr "group_sic_code_name_ext") d) eqn:Hc;
      [|discriminate H].
    destruct (dict_get (VStr "address") d) eqn:Ha; [|discriminate H].
    destruct (dict_get (VStr "city") d) eqn:Hci; [|discriminate H].
    intros k Hin. simpl in Hin.
    destruct Hin as [<-|[<-|[<-|[<-|[]]]]]; congruence.
Qed.

Lemma rebuild_sites_rmap :
  forall (items : list value) (acc : list NationalSite),
    rebuild_sites items acc
    = rbind (rmap json_to_NationalSite items) (fun l => Ok (acc ++ l)%list).
Proof.
  induction items as [|item items IH]; intros acc; cbn [rebuild_sites rmap rbind].
  - now rewrite app_nil_r.
  - destruct (json_to_NationalSite item) as [site|e]; cbn [rbind];
      [|reflexivity].
    rewrite IH. destruct (rmap json_to_NationalSite items) as [l|e];
      cbn [rbind]; [|reflexivity].
    now rewrite <- app_assoc.
Qed.

Lemma rmap_length :
  forall {A B} (f : A -> result B) (l : list A) (l' : list B),
    rmap f l = Ok l' -> List.length l' = List.length l.
Proof.
  intros A B f. induction l as [|x l IH]; intros l' H; cbn in H.
  - now injection H as <-.
  - destruct (f x) as [y|e]; [|discriminate H]. cbn in H.
    destruct (rmap f l) as [ys|e]; [|discriminate H]. cbn in H.
    injection H as <-. cbn. now rewrite (IH ys).
Qed.

Lemma rmap_raises :
  forall {A B} (f : A -> result B) (l : list A) (x : A) (e : exn),
    In x l -> f x = Raise e -> exists e', rmap f l = Raise e'.
Proof.
  intros A B f. induction l as [|y l IH]; intros x e Hin Hx; [contradiction|].
  cbn. destruct Hin as [->|Hin].
  - rewrite Hx. cbn. eauto.
  - destruct (f y) as [b|e0]; cbn; [|eauto].
    destruct (IH x e Hin Hx) as [e' ->]. cbn. eauto.
Qed.

(** X9: answered from a cached list, [get_sites_for_state] rebuilds the
    records item by item: it returns as many records as the list has items,
    in the order of the list, or, when a single item cannot be rebuilt,
    raises and returns no record at all.  Either way it only prints
    [Using cache]. *)
Theorem cached_list_is_rebuilt_whole_or_not_at_all :
  forall (state_url : value) (items : list value) (w : world),
    hashable state_url = true ->
    dict_get state_url (CACHE w) = Some (VList items) ->
    get_sites_for_state state_url w
      = (rmap json_to_NationalSite items, emit using_cache w)
    /\ (forall sites,
          rmap json_to_NationalSite items = Ok sites ->
          List.length sites = List.length items)
    /\ (forall item e,
          In item items -> json_to_NationalSite item = Raise e ->
          exists e', fst (get_sites_for_state state_url w) = Raise e').
Proof.
  intros state_url items w Hh Hg.
  assert (Hrun : get_sites_for_state state_url w
                 = (rmap json_to_NationalSite items, emit using_cache w)).
  { rewrite (get_sites_for_state_hit state_url (VList items)) by assumption.
    cbn [py_iter rbind]. rewrite rebuild_sites_rmap.
    destruct (rmap json_to_NationalSite items); reflexivity. }
  split; [exact Hrun|]. split.
  - intros sites H. now apply rmap_length in H.
  - intros item e Hin He. rewrite Hrun. cbn [fst].
    eapply rmap_raises; eauto.
Qed.

(** X10: the places near a site are cached under its zip code alone: once
    a fetch for one site returned, a fetch for any site with the same zip
    code is answered from [CACHE] with the same result and sends no
    request, whatever the other attributes of the two sites are. *)
Theorem sites_sharing_a_zip_code_share_places :
  forall (first second : NationalSite) (w w1 : world) (results : value),
    zipcode second = zipcode first ->
    get_nearby_places first w = (Ok results, w1) ->
    get_nearby_places second w1 = (Ok results, emit using_cache w1)
    /\ requests (emit using_cache w1) = requests w1.
Proof.
  intros first second w w1 results Hz H.
  split; [|reflexivity].
  apply get_nearby_places_again in H.
  unfold get_nearby_places in *. now rewrite Hz.
Qed.

End Errors.

Lemma nearby_places_info_errors_witness :
  exists k',
    nearby_places_info (VDict [(VStr "name", VStr "Cafe")])
    = Raise (KeyError (VStr k')).
Proof.
  destruct (proj1 nearby_places_info_errors [(VStr "name", VStr "Cafe")] "city")
    as (k' & _ & _ & H).
  - simpl. auto 6.
  - reflexivity.
  - exists k'. exact H.
Defined.

Lemma cached_list_is_rebuilt_whole_or_not_at_all_witness :
  get_sites_for_state (env := demo) michigan_url
    (mkWorld [(michigan_url, VList [attributes isle_royale; VDict []])]
             Absent true [] [])
  = (Raise (KeyError (VStr "category")),
     emit using_cache
       (mkWorld [(michigan_url, VList [attributes isle_royale; VDict []])]
                Absent true [] [])).
Proof.
  apply (proj1 (cached_list_is_rebuilt_whole_or_not_at_all (env := demo)
                  michigan_url [attributes isle_royale; VDict []]
                  (mkWorld [(michigan_url,
                             VList [attributes isle_royale; VDict []])]
                           Absent true [] [])
                  eq_refl eq_refl)).
Defined.

Lemma sites_sharing_a_zip_code_share_places_witness :
  get_nearby_places (env := demo)
    (mkNationalSite (VStr "") (VStr "Keweenaw") (VStr "Calumet, MI")
                    (VStr "49931") (VStr ""))
    (snd (get_nearby_places (env := demo) isle_royale fresh))
  = (Ok cafe_places,
     emit using_cache (snd (get_nearby_places (env := demo) isle_royale fresh))).
Proof.
  apply (sites_sharing_a_zip_code_share_places (env := demo) isle_royale
           (mkNationalSite (VStr "") (VStr "Keweenaw") (VStr "Calumet, MI")
                           (VStr "49931") (VStr "")) fresh).
  - reflexivity.
  - vm_compute. reflexivity.
Defined.

(** ** The directory of states *)

Section Directory.

Context {env : Environment}.

Lemma dict_get_set_str :
  forall (a b : string) (v : value) (d : dict),
    dict_get (VStr a) (dict_set (VStr b) v d)
    = if String.eqb b a then Some v else dict_get (VStr a) d.
Proof.
  intros a b v. induction d as [|[k' v'] d IH]; cbn [dict_set dict_get].
  - cbn [key_eqb]. reflexivity.
  - destruct (key_eqb k' (VStr b)) eqn:Eb; cbn [dict_get].
    + destruct k' as [| | |s'| |]; try discriminate Eb. cbn [key_eqb] in *.
      apply String.eqb_eq in Eb. subst s'.
      destruct (String.eqb b a); reflexivity.
    + rewrite IH. destruct (String.eqb b a) eqn:Eab; [|reflexivity].
      apply String.eqb_eq in Eab. subst a. now rewrite Eb.
Qed.

Lemma directory_lookup :
  forall (list_items : list (string * string)) (acc : dict) (k : string),
    let built :=
      fold_left
        (fun d item =>
           dict_set (VStr (Py.lower (Py.strip (fst item))))
                    (VStr ("https://www.nps.gov" ++ snd item)) d)
        list_items acc in
    (exists text href,
        In (text, href) list_items /\ Py.lower (Py.strip text) = k /\
        dict_get (VStr k) built = Some (VStr ("https://www.nps.gov" ++ href)))
    \/
    ((forall text href,
         In (text, href) list_items -> Py.lower (Py.strip text) <> k) /\
     dict_get (VStr k) built = dict_get (VStr k) acc).
Proof.
  induction list_items as [|[text href] items IH]; intros acc k; cbn [fold_left].
  - right. split; [intros text href []|reflexivity].
  - cbn [fst snd].
    destruct (IH (dict_set (VStr (Py.lower (Py.strip text)))
                           (VStr ("https://www.nps.gov" ++ href)) acc) k)
      as [(t & h & Hin & Hk & Hg)|[Hno Hg]].
    + left. exists t, h. split; [now right|]. now split.
    + rewrite dict_get_set_str in Hg.
      destruct (String.eqb (Py.lower (Py.strip text)) k) eqn:E.
      * left. exists text, href. split; [now left|].
        split; [now apply String.eqb_eq|exact Hg].
      * right. split; [|exact Hg].
        intros t h [Heq|Hin]; [|now apply Hno in Hin].
        injection Heq as <- <-. now apply String.eqb_neq.
Qed.

(** X11: the directory fetched from the site knows exactly the names on
    the page, trimmed and in lower case: a line is taken for a state if and
    only if its lower-case form is the trimmed lower-case text of a link,
    so a state can be typed in any letter case; the URL it gets is that of
    a link with this text, under https://www.nps.gov. *)
Theorem directory_knows_the_scraped_names :
  forall (w w1 : world) (states : value),
    dict_get (VStr "states") (CACHE w) = None ->
    build_state_url_dict w = (Ok states, w1) ->
    exists html list_items,
      http_get (requests w) "https://www.nps.gov/index.htm" = Ok html /\
      scrape_states html = Ok list_items /\
      forall line,
        (str_in (Py.lower line) states = Ok true <->
         exists text href,
           In (text, href) list_items /\
           Py.lower (Py.strip text) = Py.lower line) /\
        (str_in (Py.lower line) states = Ok true ->
         exists text href,
           In (text, href) list_items /\
           Py.lower (Py.strip text) = Py.lower line /\
           getitem_str states (Py.lower line)
             = Ok (VStr ("https://www.nps.gov" ++ href))).
Proof.
  intros w w1 states Hmiss H.
  destruct (build_state_url_dict_miss_ok _ _ _ Hmiss H)
    as (html & items & Hhtml & Hitems & ->).
  exists html, items. split; [exact Hhtml|]. split; [exact Hitems|].
  intros line. unfold str_in, getitem_str, directory_of.
  destruct (directory_lookup items [] (Py.lower line))
    as [(t & h & Hin & Hk & Hg)|[Hno Hg]]; cbv zeta in Hg; rewrite Hg.
  - split.
    + split; [intros _; exists t, h; now split|reflexivity].
    + intros _. exists t, h. repeat split; assumption.
  - cbn [dict_get]. split.
    + split; [intros Hf; discriminate Hf|].
      intros (t & h & Hin & Hk). now apply Hno in Hin.
    + intros Hf. discriminate Hf.
Qed.

End Directory.

Lemma directory_knows_the_scraped_names_witness :
  str_in (Py.lower "MICHIGAN")
    (fst_value (fst (build_state_url_dict (env := demo) fresh))) = Ok true.
Proof.
  destruct (directory_knows_the_scraped_names (env := demo) fresh
              (snd (build_state_url_dict (env := demo) fresh))
              (fst_value (fst (build_state_url_dict (env := demo) fresh))))
    as (html & items & Hh & Hs & Hline).
  - reflexivity.
  - vm_compute. reflexivity.
  - apply (proj1 (Hline "MICHIGAN")).
    injection Hs as <-. exists " Michigan ", "/state/mi/index.htm".
    split; [now left|reflexivity].
Defined.

(** ** Numbers shown and numbers typed *)

Section Numbers.

Context {env : Environment}.

Fixpoint uint_value (d : Decimal.uint) (acc : Z) : Z :=
  match d with
  | Decimal.Nil => acc
  | Decimal.D0 l => uint_value l (10 * acc + 0)
  | Decimal.D1 l => uint_value l (10 * acc + 1)
  | Decimal.D2 l => uint_value l (10 * acc + 2)
  | Decimal.D3 l => uint_value l (10 * acc + 3)
  | Decimal.D4 l => uint_value l (10 * acc + 4)
  | Decimal.D5 l => uint_value l (10 * acc + 5)
  | Decimal.D6 l => uint_value l (10 * acc + 6)
  | Decimal.D7 l => uint_value l (10 * acc + 7)
  | Decimal.D8 l => uint_value l (10 * acc + 8)
  | Decimal.D9 l => uint_value l (10 * acc + 9)
  end.

Lemma digits_of_uint :
  forall (d : Decimal.uint) (acc : Z),
    Py.digits acc true (NilEmpty.string_of_uint d) = Some (uint_value d acc).
Proof.
  induction d; intros acc; cbn [NilEmpty.string_of_uint uint_value];
    [reflexivity|..]; apply IHd.
Qed.

Lemma digits_of_uint_nonnil :
  forall (d : Decimal.uint) (acc : Z) (b : bool),
    d <> Decimal.Nil ->
    Py.digits acc b (NilEmpty.string_of_uint d) = Some (uint_value d acc).
Proof.
  intros d acc b Hd. destruct d; [now contradiction Hd|..];
    cbn [NilEmpty.string_of_uint uint_value]; apply digits_of_uint.
Qed.

Lemma uint_value_pos :
  forall (d : Decimal.uint) (acc : positive),
    uint_value d (Zpos acc) = Zpos (Pos.of_uint_acc d acc).
Proof.
  induction d; intros acc; cbn [uint_value Pos.of_uint_acc];
    [reflexivity|..];
    match goal with
    | |- uint_value _ ?z = _ =>
        match goal with
        | |- _ = Zpos (Pos.of_uint_acc _ ?p) =>
            replace z with (Zpos p) by lia; apply IHd
        end
    end.
Qed.

Lemma uint_value_0 :
  forall d : Decimal.uint, uint_value d 0 = Z.of_N (Pos.of_uint d).
Proof.
  induction d; cbn [uint_value Pos.of_uint]; [reflexivity|exact IHd|..];
    cbn [Z.mul Z.add]; rewrite uint_value_pos; reflexivity.
Qed.

Lemma digits_of_positive :
  forall p : positive,
    Py.digits 0 false (NilEmpty.string_of_uint (Pos.to_uint p)) = Some (Zpos p).
Proof.
  intros p.
  rewrite digits_of_uint_nonnil by apply DecimalPos.Unsigned.to_uint_nonnil.
  now rewrite uint_value_0, DecimalPos.Unsigned.of_to.
Qed.

Lemma uint_digits :
  forall d : Decimal.uint,
    Py.all_chars Py.isdigit (NilEmpty.string_of_uint d) = true.
Proof.
  induction d; cbn [NilEmpty.string_of_uint Py.all_chars];
    [reflexivity|..]; exact IHd.
Qed.

Lemma isdigit_code :
  forall c, Py.isdigit c = true -> (48 <= Py.code c <= 57)%N.
Proof.
  intros c H. unfold Py.isdigit in H.
  apply andb_true_iff in H as [H1 H2].
  apply N.leb_le in H1, H2. lia.
Qed.

Lemma lower_digits :
  forall s, Py.all_chars Py.isdigit s = true -> Py.lower s = s.
Proof.
  induction s as [|c s IH]; cbn [Py.all_chars Py.lower]; intros H;
    [reflexivity|].
  apply andb_true_iff in H as [Hc Hs]. rewrite (IH Hs). f_equal.
  apply isdigit_code in Hc. unfold Py.lower_char.
  replace (65 <=? Py.code c)%N with false by (symmetry; apply N.leb_gt; lia).
  replace (192 <=? Py.code c)%N with false by (symmetry; apply N.leb_gt; lia).
  reflexivity.
Qed.

Lemma numeric_digits :
  forall s, Py.all_chars Py.isdigit s = true ->
            Py.all_chars Py.numeric_char s = true.
Proof.
  induction s as [|c s IH]; cbn [Py.all_chars]; intros H; [reflexivity|].
  apply andb_true_iff in H as [Hc Hs]. rewrite (IH Hs), andb_true_r.
  unfold Py.numeric_char. unfold Py.isdigit in Hc. now rewrite Hc.
Qed.

Lemma isspace_digit : forall c, Py.isdigit c = true -> Py.isspace c = false.
Proof.
  intros c H. apply isdigit_code in H. unfold Py.isspace.
  replace (Py.code c <=? 13)%N with false by (symmetry; apply N.leb_gt; lia).
  replace (Py.code c <=? 32)%N with false by (symmetry; apply N.leb_gt; lia).
  replace (Py.code c =? 133)%N with false by (symmetry; apply N.eqb_neq; lia).
  replace (Py.code c =? 160)%N with false by (symmetry; apply N.eqb_neq; lia).
  now rewrite !andb_false_r.
Qed.

Lemma rstrip_digits :
  forall s, Py.all_chars Py.isdigit s = true -> Py.rstrip s = s.
Proof.
  induction s as [|c s IH]; cbn [Py.all_chars Py.rstrip]; intros H;
    [reflexivity|].
  apply andb_true_iff in H as [Hc Hs]. rewrite (IH Hs).
  destruct s; [|reflexivity]. now rewrite (isspace_digit c Hc).
Qed.

Lemma strip_digits :
  forall s, Py.all_chars Py.isdigit s = true -> Py.strip s = s.
Proof.
  intros s H. unfold Py.strip.
  assert (Hl : Py.lstrip s = s).
  { destruct s as [|c s]; [reflexivity|]. cbn [Py.lstrip Py.all_chars] in *.
    apply andb_true_iff in H as [Hc _]. now rewrite (isspace_digit c Hc). }
  rewrite Hl. now apply rstrip_digits.
Qed.

(** The decimal text of a positive number is numeric, and [int] reads the
    number back from it. *)
Lemma int_of_its_text :
  forall z : Z,
    0 < z ->
    Py.lower (Py.str_of_int z) = Py.str_of_int z /\
    Py.isnumeric (Py.str_of_int z) = true /\
    Py.int (Py.str_of_int z) = Ok z.
Proof.
  intros z Hz. destruct z as [|p|p]; try lia.
  unfold Py.str_of_int. cbn [Z.to_int NilZero.string_of_int].
  unfold NilZero.string_of_uint.
  pose proof (DecimalPos.Unsigned.to_uint_nonnil p) as Hnil.
  pose proof (uint_digits (Pos.to_uint p)) as Hd.
  pose proof (digits_of_positive p) as Hv.
  destruct (Pos.to_uint p) as [|l|l|l|l|l|l|l|l|l|l] eqn:E;
    [now contradiction Hnil|..];
    (split; [now apply lower_digits|];
     split; [cbn [NilEmpty.string_of_uint Py.isnumeric] in *;
             now apply numeric_digits|];
     unfold Py.int; rewrite (strip_digits _ Hd);
     cbn [NilEmpty.string_of_uint] in *; cbn [Py.code N_of_ascii N.eqb];
     now rewrite Hv).
Qed.

Lemma list_sites_lines :
  forall (sites : list NationalSite) (count : Z) (w : world) (i : nat)
         (site : NationalSite),
    nth_error sites i = Some site ->
    In (listing_line (count + Z.of_nat i) site)
       (stdout (snd (list_sites sites count w))).
Proof.
  assert (Hkeep : forall sites count w line,
             In line (stdout w) ->
             In line (stdout (snd (list_sites sites count w)))).
  { induction sites as [|s sites IH]; intros count w line H; cbn [list_sites];
      [exact H|].
    unfold bind at 1, print. apply IH. cbn [stdout emit].
    apply in_or_app. now left. }
  induction sites as [|s sites IH]; intros count w i site H.
  - destruct i; discriminate H.
  - cbn [list_sites]. unfold bind at 1, print. destruct i as [|i].
    + injection H as <-. apply Hkeep. cbn [stdout emit].
      apply in_or_app. right. left. unfold listing_line.
      now rewrite Z.add_0_r.
    + cbn [nth_error] in H.
      replace (count + Z.of_nat (S i)) with (count + 1 + Z.of_nat i) by lia.
      now apply IH.
Qed.

(** X12: the listing loop prints beside each site its place in the list,
    counted from one, and that number, typed at site-selection, passes the
    range test and picks that very site: the shell goes on with the places
    near it. *)
Theorem printed_number_picks_its_site :
  forall (states : value) (sites : list NationalSite) (i : nat)
         (site : NationalSite) (w w' : world),
    nth_error sites i = Some site ->
    let number := Py.str_of_int (1 + Z.of_nat i) in
    In (listing_line (1 + Z.of_nat i) site)
       (stdout (snd (list_sites sites 1 w)))
    /\ step (SiteSelection states sites (1 + Z.of_nat (List.length sites)))
             number w'
       = settle (show_places states sites (1 + Z.of_nat (List.length sites))
                   site
                   (emit site_prompt
                      (emit ((Py.newline ++ rule) ++ Py.newline) w'))).
Proof.
  intros states sites i site w w' Hi number.
  split; [now apply list_sites_lines|].
  destruct (int_of_its_text (1 + Z.of_nat i)) as (Hlow & Hnum & Hint); [lia|].
  fold number in Hlow, Hnum, Hint.
  assert (Hlen : (i < List.length sites)%nat)
    by (apply nth_error_Some; congruence).
  unfold step, site_selection, show_places.
  unfold bind at 1, print. unfold bind at 1, show_prompt.
  rewrite Hlow, Hnum. unfold bind at 1, lift. rewrite Hint.
  replace (in_range (1 + Z.of_nat i) 1 (1 + Z.of_nat (List.length sites) + 1))
    with true
    by (unfold in_range; symmetry; apply andb_true_iff;
        split; [apply Z.leb_le|apply Z.ltb_lt]; lia).
  unfold bind at 1, lift.
  replace (list_getitem sites (1 + Z.of_nat i - 1)) with (Ok site);
    [reflexivity|].
  unfold list_getitem.
  replace (1 + Z.of_nat i - 1) with (Z.of_nat i) by lia.
  replace (Z.of_nat i <? 0) with false by (symmetry; apply Z.ltb_ge; lia).
  replace (0 <=? Z.of_nat i) with true by (symmetry; apply Z.leb_le; lia).
  replace (Z.of_nat i <? Z.of_nat (List.length sites)) with true
    by (symmetry; apply Z.ltb_lt; lia).
  cbn [andb]. now rewrite Nat2Z.id, Hi.
Qed.

End Numbers.

Lemma printed_number_picks_its_site_witness :
  step (env := demo) (SiteSelection michigan_only [isle_royale] 2) "1" fresh
  = settle (show_places (env := demo) michigan_only [isle_royale] 2 isle_royale
              (emit site_prompt
                 (emit ((Py.newline ++ rule) ++ Py.newline) fresh))).
Proof.
  apply (proj2 (printed_number_picks_its_site (env := demo) michigan_only
                  [isle_royale] 0 isle_royale fresh fresh eq_refl)).
Defined.

(** ** Lists are fetched and shown whole, or an exception ends them *)

Section WholeLists.

Context {env : Environment}.

Lemma visit_headers_all :
  forall (headers : list (result string)) (acc : list NationalSite)
         (cached : list value) (w w1 : world) both,
    visit_headers headers acc cached w = (Ok both, w1) ->
    List.length (fst both) = (List.length acc + List.length headers)%nat /\
    forallb is_ok headers = true.
Proof.
  induction headers as [|header headers IH]; intros acc cached w w1 both H.
  - cbn in H. injection H as <- <-. cbn. split; [lia|reflexivity].
  - cbn [visit_headers] in H. unfold bind at 1, lift in H.
    destruct header as [href|e]; [|discriminate H].
    unfold bind at 1 in H.
    destruct (get_site_instance _ w) as [[instance|e] w0]; [|discriminate H].
    apply IH in H as [Hlen Hall]. rewrite Hlen, length_app.
    cbn [List.length forallb is_ok andb]. split; [lia|exact Hall].
Qed.

(** X13: a fetch of the sites of a state that are not in [CACHE] returns
    only when every header of the page gave a link and every site fetch
    returned, and then with one record per header; a single header without
    a link makes the whole fetch raise, and no list is returned. *)
Theorem state_listing_is_all_or_nothing :
  forall (state_url : value) (w : world) (html : string)
         (headers : list (result string)),
    dict_get state_url (CACHE w) = None ->
    http_get (requests w) (Py.str state_url) = Ok html ->
    scrape_headers html = Ok headers ->
    (forall sites w1,
        get_sites_for_state state_url w = (Ok sites, w1) ->
        List.length sites = List.length headers /\
        forallb is_ok headers = true)
    /\ (forallb is_ok headers = false ->
        exists e, fst (get_sites_for_state state_url w) = Raise e).
Proof.
  intros state_url w html headers Hmiss Hhtml Hheaders.
  assert (Hok : forall sites w1,
             get_sites_for_state state_url w = (Ok sites, w1) ->
             List.length sites = List.length headers /\
             forallb is_ok headers = true).
  { intros sites w1 H.
    destruct (get_sites_for_state_miss_ok _ _ _ _ Hmiss H)
      as (html' & headers' & w0 & j & Hh & Hs & Hv & _).
    assert (html' = html) by congruence. subst html'.
    assert (headers' = headers) by congruence. subst headers'.
    apply visit_headers_all in Hv. exact Hv. }
  split; [exact Hok|].
  intros Hbad.
  destruct (get_sites_for_state state_url w) as [[sites|e] w1] eqn:H.
  - destruct (Hok sites w1 eq_refl) as [_ Hall]. congruence.
  - exists e. reflexivity.
Qed.

Lemma list_places_describes :
  forall (places : list value) (count1 : Z) (w : world)
         (descriptions : list string),
    rmap describe places = Ok descriptions ->
    list_places places count1 w
      = (Ok tt, emit_all (numbered count1 descriptions) w).
Proof.
  induction places as [|place places IH]; intros count1 w descriptions H.
  - cbn in H. injection H as <-. reflexivity.
  - cbn [rmap] in H. unfold describe at 1 in H. cbn [list_places].
    unfold bind at 1, lift.
    destruct (getitem_str place "fields") as [fields|e]; [|discriminate H].
    cbn [rbind] in H. unfold bind at 1, lift.
    destruct (nearby_places_info fields) as [line|e]; [|discriminate H].
    cbn [rbind] in H.
    destruct (rmap describe places) as [rest|e] eqn:Hrest; [|discriminate H].
    cbn [rbind] in H. injection H as <-.
    unfold bind at 1, print. rewrite (IH _ _ rest eq_refl). reflexivity.
Qed.

Lemma list_places_stops :
  forall (before : list value) (bad : value) (after : list value)
         (count1 : Z) (w : world) (descriptions : list string) (e : exn),
    rmap describe before = Ok descriptions ->
    describe bad = Raise e ->
    list_places (before ++ bad :: after) count1 w
      = (Raise e, emit_all (numbered count1 descriptions) w).
Proof.
  induction before as [|place before IH];
    intros bad after count1 w descriptions e H Hbad.
  - cbn in H. injection H as <-. cbn [app list_places].
    unfold describe in Hbad. unfold bind at 1, lift.
    destruct (getitem_str bad "fields") as [fields|e0].
    + cbn [rbind] in Hbad. unfold bind at 1, lift. rewrite Hbad. reflexivity.
    + cbn [rbind] in Hbad. injection Hbad as ->. reflexivity.
  - cbn [rmap] in H. unfold describe at 1 in H. cbn [app list_places].
    unfold bind at 1, lift.
    destruct (getitem_str place "fields") as [fields|e0]; [|discriminate H].
    cbn [rbind] in H. unfold bind at 1, lift.
    destruct (nearby_places_info fields) as [line|e0]; [|discriminate H].
    cbn [rbind] in H.
    destruct (rmap describe before) as [rest|e0] eqn:Hrest; [|discriminate H].
    cbn [rbind] in H. injection H as <-.
    unfold bind at 1, print.
    rewrite (IH bad after _ _ rest e eq_refl Hbad). reflexivity.
Qed.

(** X14: the loop over the places near a site prints one numbered
    description per place, counting from the number it is given, when every
    place has fields that can be formatted; at the first place that has
    not, it raises the exception of that place, after the lines of the
    places before it and nothing else. *)
Theorem places_are_listed_until_one_fails :
  (forall (places : list value) (count1 : Z) (w : world)
          (descriptions : list string),
      rmap describe places = Ok descriptions ->
      list_places places count1 w
        = (Ok tt, emit_all (numbered count1 descriptions) w))
  /\ (forall (before : list value) (bad : value) (after : list value)
             (count1 : Z) (w : world) (descriptions : list string) (e : exn),
        rmap describe before = Ok descriptions ->
        describe bad = Raise e ->
        list_places (before ++ bad :: after) count1 w
          = (Raise e, emit_all (numbered count1 descriptions) w)).
Proof. split; [apply list_places_describes|apply list_places_stops]. Qed.

End WholeLists.

Lemma state_listing_is_all_or_nothing_witness :
  List.length
    (match fst (get_sites_for_state (env := demo) michigan_url fresh) with
     | Ok sites => sites
     | Raise _ => []
     end) = 1%nat.
Proof.
  destruct (proj1 (state_listing_is_all_or_nothing (env := demo) michigan_url
                     fresh "https://www.nps.gov/state/mi/index.htm"
                     [Ok "/isro/"] eq_refl eq_refl eq_refl)
              [isle_royale]
              (snd (get_sites_for_state (env := demo) michigan_url fresh)))
    as [Hlen _].
  - vm_compute. reflexivity.
  - reflexivity.
Defined.

Lemma places_are_listed_until_one_fails_witness :
  list_places
    [VDict [(VStr "fields",
             VDict [(VStr "name", VStr "Cafe");
                    (VStr "group_sic_code_name_ext", VStr "");
                    (VStr "address", VStr "1 Main St");
                    (VStr "city", VStr "Houghton")])];
     VDict []; VNone] 1 fresh
  = (Raise (KeyError (VStr "fields")),
     emit_all (numbered 1 ["Cafe (no category): 1 Main St, Houghton"]) fresh).
Proof.
  apply (proj2 places_are_listed_until_one_fails
           [VDict [(VStr "fields",
                    VDict [(VStr "name", VStr "Cafe");
                           (VStr "group_sic_code_name_ext", VStr "");
                           (VStr "address", VStr "1 Main St");
                           (VStr "city", VStr "Houghton")])]]
           (VDict []) [VNone] 1 fresh); reflexivity.
Defined.

(** ** Runs of the two properties stated earlier *)


